(** * A Lambda web handler: event normalizer, router and entry point

    Shallow embedding of [src/lambda.py].  The handler receives the event the
    gateway delivers (a JSON document decoded by the runtime), normalizes it
    ([_parse_event]), dispatches on method and path ([route]) and wraps both in
    one failure boundary ([lambda_handler]).

    Python is dynamically typed and the program leans on that ([x or y],
    [.get] on whatever a field holds, [in] on whatever a header holds), so the
    embedding carries Python objects with their run-time type, and every
    operation that can raise returns in the [result] monad with the exception
    it raises. *)

From Stdlib Require Import String Ascii List ZArith Bool Arith Lia.
From Stdlib Require Import Strings.Byte.
Import ListNotations.
Local Open Scope string_scope.

(** ** Python objects *)

Module Py.

(** What [json.loads] produces, and so what an event is made of.  A [dict] is
    an association list in insertion order: [json.dumps] and the merge of
    header maps both depend on that order.  A float is identified by its
    [repr], which is all the program can observe of it. *)
#[local] Set Warnings "-register-all".
Inductive json : Type :=
| JNull
| JBool (b : bool)
| JInt (n : Z)
| JFloat (repr : string)
| JStr (s : string)
| JList (l : list json)
| JDict (d : list (string * json)).

Definition dict := list (string * json).
Definition bytes := list byte.

(** The body is the one place where a [bytes] object appears next to the
    objects of the event. *)
Inductive object : Type :=
| OJson (j : json)
| OBytes (b : bytes).

(** *** Exceptions *)

Inductive exc_class : Type :=
| Exception
| AttributeError
| TypeError
| LookupError
| IndexError
| ValueError
| UnicodeError
| UnicodeDecodeError
| UnicodeEncodeError
| BinasciiError
| JSONDecodeError
| RuntimeError
| RecursionError
| NotImplementedError
| MemoryError.

Definition exc_class_eqb (a b : exc_class) : bool :=
  match a, b with
  | Exception, Exception | AttributeError, AttributeError
  | TypeError, TypeError | LookupError, LookupError
  | IndexError, IndexError | ValueError, ValueError
  | UnicodeError, UnicodeError
  | UnicodeDecodeError, UnicodeDecodeError
  | UnicodeEncodeError, UnicodeEncodeError
  | BinasciiError, BinasciiError | JSONDecodeError, JSONDecodeError
  | RuntimeError, RuntimeError | RecursionError, RecursionError
  | NotImplementedError, NotImplementedError
  | MemoryError, MemoryError => true
  | _, _ => false
  end.

(** The direct base class; [Exception] is the root of what the program and
    its libraries raise. *)
Definition base (c : exc_class) : option exc_class :=
  match c with
  | Exception => None
  | AttributeError | TypeError | LookupError | ValueError
  | RuntimeError | MemoryError => Some Exception
  | IndexError => Some LookupError
  | UnicodeError | BinasciiError | JSONDecodeError => Some ValueError
  | UnicodeDecodeError | UnicodeEncodeError => Some UnicodeError
  | RecursionError | NotImplementedError => Some RuntimeError
  end.

Fixpoint issubclass_upto (depth : nat) (c k : exc_class) : bool :=
  exc_class_eqb c k ||
  match depth with
  | O => false
  | S d => match base c with
           | Some b => issubclass_upto d b k
           | None => false
           end
  end.

(** The hierarchy above is three levels deep. *)
Definition issubclass (c k : exc_class) : bool := issubclass_upto 3 c k.

(** An exception object: its class and [str(e)]. *)
Record exn : Type := mkExn { exn_class : exc_class; exn_str : string }.

Definition isinstance (e : exn) (k : exc_class) : bool :=
  issubclass (exn_class e) k.

(** *** Computations that may raise *)

Inductive result (A : Type) : Type :=
| Ok (a : A)
| Raise (e : exn).
Arguments Ok {A} a.
Arguments Raise {A} e.

Definition bind {A B : Type} (c : result A) (k : A -> result B) : result B :=
  match c with
  | Ok a => k a
  | Raise e => Raise e
  end.

Definition fmap {A B : Type} (f : A -> B) (c : result A) : result B :=
  bind c (fun a => Ok (f a)).

(** [try: c  except k as e: h e] *)
Definition try_except {A : Type} (c : result A) (k : exc_class)
    (h : exn -> result A) : result A :=
  match c with
  | Ok a => Ok a
  | Raise e => if isinstance e k then h e else Raise e
  end.

(** *** Run-time types and truth values *)

Definition type_name (j : json) : string :=
  match j with
  | JNull => "NoneType"
  | JBool _ => "bool"
  | JInt _ => "int"
  | JFloat _ => "float"
  | JStr _ => "str"
  | JList _ => "list"
  | JDict _ => "dict"
  end.

Definition object_type_name (o : object) : string :=
  match o with
  | OJson j => type_name j
  | OBytes _ => "bytes"
  end.

(** [bool(x)]: [None], [False], zero, and the empty string, list and dict are
    false. *)
Definition truthy (j : json) : bool :=
  match j with
  | JNull => false
  | JBool b => b
  | JInt n => negb (n =? 0)%Z
  | JFloat r => negb ((r =? "0.0") || (r =? "-0.0"))
  | JStr s => negb (s =? "")
  | JList l => match l with [] => false | _ => true end
  | JDict d => match d with [] => false | _ => true end
  end.

Definition object_truthy (o : object) : bool :=
  match o with
  | OJson j => truthy j
  | OBytes b => match b with [] => false | _ => true end
  end.

(** [x or y], with [y] only evaluated when [x] is false. *)
Definition or_else (x : json) (y : result json) : result json :=
  if truthy x then Ok x else y.

Definition attribute_error (tyname attr : string) : exn :=
  mkExn AttributeError
    ("'" ++ tyname ++ "' object has no attribute '" ++ attr ++ "'").

(** *** dict *)

Fixpoint dict_lookup (d : dict) (k : string) : option json :=
  match d with
  | [] => None
  | (k', v) :: d' => if k' =? k then Some v else dict_lookup d' k
  end.

(** [d.get(k, default)] on a dict. *)
Definition dict_get (d : dict) (k : string) (default : json) : json :=
  match dict_lookup d k with
  | Some v => v
  | None => default
  end.

(** [d[k] = v]: an existing key keeps its place, a new one goes last. *)
Fixpoint dict_set (d : dict) (k : string) (v : json) : dict :=
  match d with
  | [] => [(k, v)]
  | (k', v') :: d' =>
      if k' =? k then (k', v) :: d' else (k', v') :: dict_set d' k v
  end.

(** [{**d1, **d2}] *)
Definition dict_merge (d1 d2 : dict) : dict :=
  fold_left (fun acc kv => dict_set acc (fst kv) (snd kv)) d2 d1.

(** [x.get(k, default)] on any object: only a dict has the method. *)
Definition get (x : json) (k : string) (default : json) : result json :=
  match x with
  | JDict d => Ok (dict_get d k default)
  | _ => Raise (attribute_error (type_name x) "get")
  end.

(** [x.items()] *)
Definition items (x : json) : result (list (string * json)) :=
  match x with
  | JDict d => Ok d
  | _ => Raise (attribute_error (type_name x) "items")
  end.

(** *** str *)

(** [needle in s] for two strings. *)
Fixpoint str_contains (needle s : string) : bool :=
  prefix needle s ||
  match s with
  | EmptyString => false
  | String _ s' => str_contains needle s'
  end.

Fixpoint str_drop (n : nat) (s : string) : string :=
  match n, s with
  | O, _ => s
  | S n', String _ s' => str_drop n' s'
  | S _, EmptyString => EmptyString
  end.

(** The cut of [s] at the first occurrence of [sep]. *)
Fixpoint str_partition (sep s : string) : option (string * string) :=
  if prefix sep s then Some ("", str_drop (String.length sep) s)
  else match s with
       | EmptyString => None
       | String c s' =>
           match str_partition sep s' with
           | Some (a, b) => Some (String c a, b)
           | None => None
           end
       end.

(** [s.split(sep, 1)] for a non-empty [sep]. *)
Definition str_split1 (sep s : string) : list string :=
  match str_partition sep s with
  | Some (a, b) => [a; b]
  | None => [s]
  end.

(** [l[i]] *)
Definition list_index (l : list string) (i : nat) : result string :=
  match nth_error l i with
  | Some x => Ok x
  | None => Raise (mkExn IndexError "list index out of range")
  end.

(** [x == s] for a string literal [s]: objects of another type are unequal. *)
Definition eq_str (x : json) (s : string) : bool :=
  match x with
  | JStr t => t =? s
  | _ => false
  end.

(** [needle in x] for a string [needle]: substring of a str, element of a
    list, key of a dict; the other types are not containers. *)
Definition contains (needle : string) (x : json) : result bool :=
  match x with
  | JStr s => Ok (str_contains needle s)
  | JList l => Ok (existsb (fun y => eq_str y needle) l)
  | JDict d => Ok (existsb (fun kv => fst kv =? needle) d)
  | _ => Raise (mkExn TypeError
             ("argument of type '" ++ type_name x ++ "' is not iterable"))
  end.

(** [x.startswith(p)] *)
Definition startswith (x : json) (p : string) : result bool :=
  match x with
  | JStr s => Ok (prefix p s)
  | _ => Raise (attribute_error (type_name x) "startswith")
  end.

(** [x.split(sep, 1)] *)
Definition split1 (x : json) (sep : string) : result (list string) :=
  match x with
  | JStr s => Ok (str_split1 sep s)
  | _ => Raise (attribute_error (type_name x) "split")
  end.

End Py.
Export Py.

Declare Scope py_scope.
Delimit Scope py_scope with py.
Notation "x <- c ;; k" := (bind c (fun x => k))
  (at level 61, c at next level, right associativity) : py_scope.
Local Open Scope py_scope.

(** ** The standard library behind the program

    The handler calls into [str], [bytes], [base64] and [json].  What those
    functions compute is not this repository's code; the handler is embedded
    over their interface, and what is proved of it holds for every behaviour
    of the library.  [RefPy] below is an executable instance. *)
Class PyLib : Type := {
  (** [s.upper()], [s.lower()] *)
  str_upper : string -> string;
  str_lower : string -> string;
  (** [s.encode("utf-8")]; raises on a lone surrogate *)
  str_encode : string -> result bytes;
  (** [b.decode("utf-8")] *)
  bytes_decode : bytes -> result string;
  (** [base64.b64decode(s)] for a str [s] *)
  b64decode : string -> result bytes;
  (** [json.loads(s)] *)
  json_loads : string -> result json;
  (** [json.dumps(x)] with the default options *)
  json_dumps : json -> string
}.

(** ** The clock

    [datetime.now(timezone.utc)] reads the clock; the reading is an explicit
    argument of the handler. *)
Record datetime : Type := mkDatetime {
  year : N; month : N; day : N;
  hour : N; minute : N; second : N;
  microsecond : N
}.

(** What the [datetime] constructor accepts (the day is further bounded by
    the month's length, which the rendering does not depend on). *)
Definition valid_datetime (t : datetime) : bool :=
  ((1 <=? year t) && (year t <=? 9999) &&
   (1 <=? month t) && (month t <=? 12) &&
   (1 <=? day t) && (day t <=? 31) &&
   (hour t <=? 23) && (minute t <=? 59) && (second t <=? 59) &&
   (microsecond t <=? 999999))%N.

Definition digit (n : N) : ascii := ascii_of_N (48 + n mod 10).

(** The [w] low-order decimal digits of [n]. *)
Fixpoint fixed_width (w : nat) (n : N) : string :=
  match w with
  | O => ""
  | S w' => fixed_width w' (n / 10) ++ String (digit n) ""
  end.

Fixpoint decimal_upto (fuel : nat) (n : N) (acc : string) : string :=
  match fuel with
  | O => acc
  | S f =>
      let acc' := String (digit n) acc in
      if (n <? 10)%N then acc' else decimal_upto f (n / 10) acc'
  end.

(** [str(n)]; a number has no more decimal digits than bits. *)
Definition decimal (n : N) : string := decimal_upto (S (N.size_nat n)) n "".

(** ["%0*d" % (w, n)]: zero padding to width [w], never truncation. *)
Definition zero_padded (w : nat) (n : N) : string :=
  if (n <? 10 ^ N.of_nat w)%N then fixed_width w n else decimal n.

(** [t.isoformat()] for an aware [t] whose offset is UTC: the microseconds
    are left out when they are zero. *)
Definition isoformat (t : datetime) : string :=
  zero_padded 4 (year t) ++ "-" ++ zero_padded 2 (month t) ++ "-" ++
  zero_padded 2 (day t) ++ "T" ++
  zero_padded 2 (hour t) ++ ":" ++ zero_padded 2 (minute t) ++ ":" ++
  zero_padded 2 (second t) ++
  (if (microsecond t =? 0)%N then "" else "." ++ zero_padded 6 (microsecond t)) ++
  "+00:00".

(** ** The handler *)

(** The response envelope. *)
Record response : Type := mkResponse {
  statusCode : Z;
  headers : dict;
  body : string;
  isBase64Encoded : bool
}.

(** The canonical request: the tuple [_parse_event] returns. *)
Record request : Type := mkRequest {
  req_method : string;
  req_path : json;
  req_headers : dict;
  req_query : json;
  req_body_bytes : object;
  req_body_json : json
}.

Section Handler.

Context {L : PyLib}.

Definition CORS_HEADERS : dict :=
  [ ("Access-Control-Allow-Origin", JStr "*");
    ("Access-Control-Allow-Methods", JStr "GET,POST,PUT,PATCH,DELETE,OPTIONS");
    ("Access-Control-Allow-Headers",
       JStr "Content-Type,Authorization,X-Requested-With") ].

(** [_response(status, body, headers, is_base64)]; [headers] is [None] (the
    default) or a dict. *)
Definition _response (status : Z) (body : json) (headers : option dict)
    (is_base64 : bool) : response :=
  let merged :=
    dict_merge CORS_HEADERS
      (match headers with Some h => h | None => [] end) in
  let body := match body with JNull => JStr "" | _ => body end in
  let body := match body with JStr s => s | _ => json_dumps body end in
  {| statusCode := status;
     headers := merged;
     body := body;
     isBase64Encoded := is_base64 |}.

(** [{k.lower(): v for k, v in items}] *)
Definition lower_keys (kvs : list (string * json)) : dict :=
  fold_left (fun acc kv => dict_set acc (str_lower (fst kv)) (snd kv)) kvs [].

(** [base64.b64decode(x)]: a str goes to the decoder, and no other object of
    an event is bytes-like. *)
Definition base64_b64decode (x : json) : result bytes :=
  match x with
  | JStr s => b64decode s
  | _ => Raise (mkExn TypeError
           ("argument should be a bytes-like object or ASCII string, not '"
              ++ type_name x ++ "'"))
  end.

(** [x.decode("utf-8")] *)
Definition decode (x : object) : result string :=
  match x with
  | OBytes b => bytes_decode b
  | OJson j => Raise (attribute_error (type_name j) "decode")
  end.

(** [x.upper()] *)
Definition upper (x : json) : result string :=
  match x with
  | JStr s => Ok (str_upper s)
  | _ => Raise (attribute_error (type_name x) "upper")
  end.

(** Lines 30-35: the method before it is uppercased. *)
Definition event_method (event : json) : result json :=
  rc <- get event "requestContext" (JDict []) ;;
  http <- get rc "http" (JDict []) ;;
  m <- get http "method" JNull ;;
  or_else m (get event "httpMethod" (JStr "GET")).

(** Lines 36-40 *)
Definition event_path (event : json) : result json :=
  raw <- get event "rawPath" JNull ;;
  or_else raw (p <- get event "path" JNull ;; or_else p (Ok (JStr "/"))).

(** Lines 49-54 *)
Definition event_body_bytes (event : json) : result object :=
  body_b64 <- get event "isBase64Encoded" (JBool false) ;;
  body_raw <- (b <- get event "body" JNull ;; or_else b (Ok (JStr ""))) ;;
  if truthy body_b64 && truthy body_raw then
    fmap OBytes (base64_b64decode body_raw)
  else
    match body_raw with
    | JStr s => fmap OBytes (str_encode s)
    | _ => Ok (if truthy body_raw then OJson body_raw else OBytes [])
    end.

(** Lines 56-62 *)
Definition event_body_json (headers : dict) (body_bytes : object)
    : result json :=
  let ctype := dict_get headers "content-type" (JStr "") in
  is_json <- contains "application/json" ctype ;;
  if is_json && object_truthy body_bytes then
    try_except (s <- decode body_bytes ;; json_loads s)
      JSONDecodeError (fun _ => Ok JNull)
  else Ok JNull.

Definition _parse_event (event : json) : result request :=
  method <- event_method event ;;
  path <- event_path event ;;
  hs <- (h <- get event "headers" JNull ;; or_else h (Ok (JDict []))) ;;
  kvs <- items hs ;;
  let headers := lower_keys kvs in
  query <- (q <- get event "queryStringParameters" JNull ;;
            or_else q (Ok (JDict []))) ;;
  let query := match query with JNull => JDict [] | _ => query end in
  body_bytes <- event_body_bytes event ;;
  body_json <- event_body_json headers body_bytes ;;
  m <- upper method ;;
  Ok {| req_method := m;
        req_path := path;
        req_headers := headers;
        req_query := query;
        req_body_bytes := body_bytes;
        req_body_json := body_json |}.

(** Lines 102-107: what is left when no earlier rule returned. *)
Definition route_rest (method : string) (path : json) : response :=
  if method =? "OPTIONS" then _response 204 (JStr "") None false
  else _response 404
         (JDict [("error", JStr "Not found");
                 ("method", JStr method);
                 ("path", path)]) None false.

(** [route(method, path, query, body_json)].  [method] is a str: the entry
    point passes the result of [.upper()].  [path] is whatever the event
    held. *)
Definition route (now : datetime) (method : string) (path : json)
    (query : json) (body_json : json) : result response :=
  if (method =? "GET") && eq_str path "/health" then
    Ok (_response 200
          (JDict [("ok", JBool true); ("time", JStr (isoformat now))])
          None false)
  else if (method =? "GET") && eq_str path "/" then
    Ok (_response 200
          (JDict [("message", JStr "Hello from Lambda webserver 👋");
                  ("paths", JList [JStr "/"; JStr "/health"; JStr "/echo";
                                   JStr "/items/{id}"])])
          None false)
  else if (method =? "POST") && eq_str path "/echo" then
    Ok (_response 200
          (JDict [("received", body_json);
                  ("note", JStr "POST JSON to /echo and I’ll send it back.")])
          None false)
  else
    is_items <- startswith path "/items/" ;;
    if is_items && existsb (String.eqb method) ["GET"; "PUT"; "DELETE"] then
      parts <- split1 path "/items/" ;;
      item_id <- list_index parts 1 ;;
      if item_id =? "" then
        Ok (_response 400 (JDict [("error", JStr "Missing item id")])
              None false)
      else if method =? "GET" then
        Ok (_response 200
              (JDict [("id", JStr item_id);
                      ("name", JStr ("Item " ++ item_id))])
              None false)
      else if method =? "PUT" then
        Ok (_response 200
              (JDict [("updated", JStr item_id); ("body", body_json)])
              None false)
      else if method =? "DELETE" then
        Ok (_response 204 (JStr "") None false)
      else Ok (route_rest method path)
    else Ok (route_rest method path).

(** [lambda_handler(event, context)] *)
Definition lambda_handler (now : datetime) (event context : json)
    : result response :=
  try_except
    (r <- _parse_event event ;;
     route now (req_method r) (req_path r) (req_query r) (req_body_json r))
    Exception
    (fun e =>
       Ok (_response 500
             (JDict [("error", JStr "Internal Server Error");
                     ("detail", JStr (exn_str e))])
             None false)).

End Handler.

(** ** An executable instance of the library

    [RefPy] runs the handler on concrete events.  A str is held as the UTF-8
    encoding of its text, so [encode] is the identity on it and [decode]
    checks well-formedness.  The instance follows CPython on ASCII text and
    integer-valued JSON; each function says what it leaves out. *)
Module RefPy.

Definition code (c : ascii) : N := N_of_ascii c.
Definition between (lo hi n : N) : bool := ((lo <=? n) && (n <=? hi))%N.

(** *** [str.upper], [str.lower]: the ASCII letters (case mapping of other
    letters is left out) *)
Definition ascii_upper (c : ascii) : ascii :=
  if between 97 122 (code c) then ascii_of_N (code c - 32) else c.

Definition ascii_lower (c : ascii) : ascii :=
  if between 65 90 (code c) then ascii_of_N (code c + 32) else c.

Fixpoint map_string (f : ascii -> ascii) (s : string) : string :=
  match s with
  | EmptyString => EmptyString
  | String c s' => String (f c) (map_string f s')
  end.

Definition upper (s : string) : string := map_string ascii_upper s.
Definition lower (s : string) : string := map_string ascii_lower s.

(** *** Numbers as text *)

Definition hex_digit (n : N) : ascii :=
  if (n <? 10)%N then ascii_of_N (48 + n) else ascii_of_N (87 + n).

(** ["%02x" % n] for a byte *)
Definition hex2 (n : N) : string :=
  String (hex_digit (n / 16)) (String (hex_digit (n mod 16)) "").

(** ["%04x" % n] for a UTF-16 code unit *)
Definition hex4 (n : N) : string :=
  hex2 (n / 256) ++ hex2 (n mod 256).

Definition str_of_N (n : N) : string := decimal n.

Definition str_of_Z (z : Z) : string :=
  match z with
  | Zneg p => "-" ++ decimal (Npos p)
  | _ => decimal (Z.to_N z)
  end.

(** *** [bytes.decode("utf-8")] *)

Definition is_cont (b : N) : bool := between 128 191 b.

(** How far a sequence that starts badly reaches, as the decoder reports it:
    [Some n] is a defect found after [n] good bytes ([0]: the start byte
    itself), [None] is the end of the data inside a sequence. *)
Inductive utf8_step : Type :=
| Utf8Good (len : nat)
| Utf8Bad (good : nat)
| Utf8End.

Definition utf8_step_at (bs : list N) : utf8_step :=
  match bs with
  | [] => Utf8Good 0
  | b1 :: r1 =>
      if (b1 <? 128)%N then Utf8Good 1
      else if (b1 <? 194)%N then Utf8Bad 0
      else if (b1 <? 224)%N then
        match r1 with
        | [] => Utf8End
        | b2 :: _ => if is_cont b2 then Utf8Good 2 else Utf8Bad 1
        end
      else if (b1 <? 240)%N then
        match r1 with
        | [] => Utf8End
        | b2 :: r2 =>
            if negb (is_cont b2)
               || (if (b2 <? 160)%N then (b1 =? 224)%N else (b1 =? 237)%N)
            then Utf8Bad 1
            else match r2 with
                 | [] => Utf8End
                 | b3 :: _ => if is_cont b3 then Utf8Good 3 else Utf8Bad 2
                 end
        end
      else if (b1 <? 245)%N then
        match r1 with
        | [] => Utf8End
        | b2 :: r2 =>
            if negb (is_cont b2)
               || (if (b2 <? 144)%N then (b1 =? 240)%N else (b1 =? 244)%N)
            then Utf8Bad 1
            else match r2 with
                 | [] => Utf8End
                 | b3 :: r3 =>
                     if negb (is_cont b3) then Utf8Bad 2
                     else match r3 with
                          | [] => Utf8End
                          | b4 :: _ =>
                              if is_cont b4 then Utf8Good 4 else Utf8Bad 3
                          end
                 end
        end
      else Utf8Bad 0
  end.

(** [str(e)] of a [UnicodeDecodeError] over the bytes [start .. stop-1]. *)
Definition utf8_error (first : N) (start stop : nat) (why : string) : exn :=
  mkExn UnicodeDecodeError
    (if (stop =? S start)%nat then
       "'utf-8' codec can't decode byte 0x" ++ hex2 first ++ " in position "
         ++ str_of_N (N.of_nat start) ++ ": " ++ why
     else
       "'utf-8' codec can't decode bytes in position "
         ++ str_of_N (N.of_nat start) ++ "-"
         ++ str_of_N (N.of_nat (stop - 1)) ++ ": " ++ why).

Fixpoint utf8_scan (fuel : nat) (bs : list N) (pos : nat) : option exn :=
  match fuel, bs with
  | _, [] => None
  | O, _ => None
  | S f, b :: _ =>
      match utf8_step_at bs with
      | Utf8Good n => utf8_scan f (skipn n bs) (pos + n)
      | Utf8Bad 0 => Some (utf8_error b pos (S pos) "invalid start byte")
      | Utf8Bad n =>
          Some (utf8_error b pos (pos + n) "invalid continuation byte")
      | Utf8End =>
          Some (utf8_error b pos (pos + List.length bs)
                  "unexpected end of data")
      end
  end.

Definition decode_utf8 (b : bytes) : result string :=
  let ns := map Byte.to_N b in
  match utf8_scan (List.length ns) ns 0 with
  | None => Ok (string_of_list_byte b)
  | Some e => Raise e
  end.

(** *** [str.encode("utf-8")]: the text as it is held (a lone surrogate has
    no UTF-8 form, so it is not part of the instance and nothing raises) *)
Definition encode_utf8 (s : string) : result bytes :=
  Ok (list_byte_of_string s).

(** *** [base64.b64decode(s)]: [binascii.a2b_base64] in its default,
    non-strict mode *)

Definition b64_value (c : N) : option N :=
  if between 65 90 c then Some (c - 65)%N
  else if between 97 122 c then Some (c - 71)%N
  else if between 48 57 c then Some (c + 4)%N
  else if (c =? 43)%N then Some 62%N
  else if (c =? 47)%N then Some 63%N
  else None.

(** The decoding loop: the position in the current group of four, the bits
    left over from it, the run of pad characters, the output so far.  It
    returns the final position in the group, [0] after a complete pad. *)
Fixpoint b64_loop (cs : list N) (quad_pos : nat) (leftchar : N) (pads : nat)
    (out : list N) : nat * list N :=
  match cs with
  | [] => (quad_pos, out)
  | c :: cs' =>
      if (c =? 61)%N then
        if (2 <=? quad_pos)%nat then
          if (4 <=? quad_pos + S pads)%nat then (O, out)
          else b64_loop cs' quad_pos leftchar (S pads) out
        else b64_loop cs' quad_pos leftchar pads out
      else
        match b64_value c with
        | None => b64_loop cs' quad_pos leftchar pads out
        | Some v =>
            match quad_pos with
            | 0%nat => b64_loop cs' 1 v 0 out
            | 1%nat =>
                b64_loop cs' 2 (N.land v 15) 0
                  (out ++ [N.lor (N.shiftl leftchar 2) (N.shiftr v 4)])
            | 2%nat =>
                b64_loop cs' 3 (N.land v 3) 0
                  (out ++ [N.lor (N.shiftl leftchar 4) (N.shiftr v 2)])
            | _ =>
                b64_loop cs' 0 0 0 (out ++ [N.lor (N.shiftl leftchar 6) v])
            end
        end
  end.

Definition byte_of_N (n : N) : byte :=
  match Byte.of_N n with
  | Some b => b
  | None => x00
  end.

Definition base64_decode (s : string) : result bytes :=
  let cs := map code (list_ascii_of_string s) in
  if existsb (fun c => (128 <=? c)%N) cs then
    Raise (mkExn ValueError
             "string argument should contain only ASCII characters")
  else
    match b64_loop cs 0 0 0 [] with
    | (0%nat, out) => Ok (map byte_of_N out)
    | (1%nat, out) =>
        Raise (mkExn BinasciiError
          ("Invalid base64-encoded string: number of data characters ("
             ++ str_of_N (N.of_nat (List.length out) / 3 * 4 + 1)
             ++ ") cannot be 1 more than a multiple of 4"))
    | (_, _) => Raise (mkExn BinasciiError "Incorrect padding")
    end.

(** *** Code points of a str *)

Definition utf8_join (lead_mask : N) (bs : list N) : N :=
  match bs with
  | [] => 0%N
  | b :: r =>
      fold_left (fun acc c => (acc * 64 + N.land c 63)%N) r (N.land b lead_mask)
  end.

(** The code points of well-formed UTF-8 (a byte out of place is carried as
    the surrogate [0xDC00 + b]). *)
Fixpoint code_points (fuel : nat) (bs : list N) : list N :=
  match fuel, bs with
  | _, [] => []
  | O, _ => []
  | S f, b :: r =>
      match utf8_step_at bs with
      | Utf8Good 2 => utf8_join 31 (firstn 2 bs) :: code_points f (skipn 2 bs)
      | Utf8Good 3 => utf8_join 15 (firstn 3 bs) :: code_points f (skipn 3 bs)
      | Utf8Good 4 => utf8_join 7 (firstn 4 bs) :: code_points f (skipn 4 bs)
      | Utf8Good _ => b :: code_points f r
      | _ => (56320 + b)%N :: code_points f r
      end
  end.

Definition utf8_of_code_point (cp : N) : list N :=
  if (cp <? 128)%N then [cp]
  else if (cp <? 2048)%N then
    [(192 + cp / 64)%N; (128 + cp mod 64)%N]
  else if (cp <? 65536)%N then
    [(224 + cp / 4096)%N; (128 + (cp / 64) mod 64)%N; (128 + cp mod 64)%N]
  else
    [(240 + cp / 262144)%N; (128 + (cp / 4096) mod 64)%N;
     (128 + (cp / 64) mod 64)%N; (128 + cp mod 64)%N].

Definition chars_of (s : string) : list N := map code (list_ascii_of_string s).
Definition string_of_chars (cs : list N) : string :=
  string_of_list_ascii (map ascii_of_N cs).

(** *** [json.dumps(x)]: separators [", "] and [": "], [ensure_ascii] *)

Definition dquote : string := String (ascii_of_N 34) "".

Definition escape_code_point (cp : N) : string :=
  if (cp =? 34)%N then "\" ++ dquote
  else if (cp =? 92)%N then "\\"
  else if (cp =? 10)%N then "\n"
  else if (cp =? 13)%N then "\r"
  else if (cp =? 9)%N then "\t"
  else if (cp =? 8)%N then "\b"
  else if (cp =? 12)%N then "\f"
  else if between 32 126 cp then String (ascii_of_N cp) ""
  else if (cp <? 65536)%N then "\u" ++ hex4 cp
  else
    let n := (cp - 65536)%N in
    "\u" ++ hex4 (N.lor 55296 (N.land (N.shiftr n 10) 1023))
      ++ "\u" ++ hex4 (N.lor 56320 (N.land n 1023)).

Definition dumps_str (s : string) : string :=
  let cs := chars_of s in
  dquote
    ++ String.concat "" (map escape_code_point (code_points (List.length cs) cs))
    ++ dquote.

(** [float.__repr__] as [json] writes it. *)
Definition dumps_float (r : string) : string :=
  if r =? "inf" then "Infinity"
  else if r =? "-inf" then "-Infinity"
  else if r =? "nan" then "NaN"
  else r.

Fixpoint dumps (x : json) : string :=
  match x with
  | JNull => "null"
  | JBool true => "true"
  | JBool false => "false"
  | JInt n => str_of_Z n
  | JFloat r => dumps_float r
  | JStr s => dumps_str s
  | JList l =>
      "[" ++ (fix elements (l : list json) : string :=
                match l with
                | [] => ""
                | y :: l' =>
                    dumps y ++
                    match l' with [] => "" | _ => ", " ++ elements l' end
                end) l ++ "]"
  | JDict d =>
      "{" ++ (fix members (d : list (string * json)) : string :=
                match d with
                | [] => ""
                | (k, v) :: d' =>
                    dumps_str k ++ ": " ++ dumps v ++
                    match d' with [] => "" | _ => ", " ++ members d' end
                end) d ++ "}"
  end.

(** *** [json.loads(s)]

    The reader follows the decoder on the grammar and on what raises
    [JSONDecodeError]; the message is left without its position, which the
    program never sees.  Left out: a number with a fraction or an exponent
    (its value needs the float conversion; the reader raises
    [NotImplementedError]), the recursion limit and the limit on the digits
    of an int. *)

Definition decode_error (msg : string) : exn := mkExn JSONDecodeError msg.

Definition is_ws (c : N) : bool :=
  ((c =? 32) || (c =? 9) || (c =? 10) || (c =? 13))%N.

Fixpoint skip_ws (cs : list N) : list N :=
  match cs with
  | c :: r => if is_ws c then skip_ws r else cs
  | [] => []
  end.

Definition is_digit (c : N) : bool := between 48 57 c.

Definition hex_value (c : N) : option N :=
  if between 48 57 c then Some (c - 48)%N
  else if between 97 102 c then Some (c - 87)%N
  else if between 65 70 c then Some (c - 55)%N
  else None.

(** [XXXX] of a [\uXXXX] escape *)
Definition read_hex4 (cs : list N) : option (N * list N) :=
  match cs with
  | a :: b :: c :: d :: r =>
      match hex_value a, hex_value b, hex_value c, hex_value d with
      | Some x, Some y, Some z, Some w =>
          Some ((((x * 16 + y) * 16 + z) * 16 + w)%N, r)
      | _, _, _, _ => None
      end
  | _ => None
  end.

Definition simple_escape (c : N) : option N :=
  if (c =? 34)%N then Some 34%N
  else if (c =? 92)%N then Some 92%N
  else if (c =? 47)%N then Some 47%N
  else if (c =? 98)%N then Some 8%N
  else if (c =? 102)%N then Some 12%N
  else if (c =? 110)%N then Some 10%N
  else if (c =? 114)%N then Some 13%N
  else if (c =? 116)%N then Some 9%N
  else None.

(** The low half of a surrogate pair that follows a high half. *)
Definition read_low_surrogate (cs : list N) : option (N * list N) :=
  match cs with
  | 92%N :: 117%N :: r =>
      match read_hex4 r with
      | Some (u, r') => if between 56320 57343 u then Some (u, r') else None
      | None => None
      end
  | _ => None
  end.

(** A string after its opening quote. *)
Fixpoint scan_string (fuel : nat) (cs : list N) (acc : list N)
    : result (string * list N) :=
  match fuel, cs with
  | _, [] | O, _ => Raise (decode_error "Unterminated string starting at")
  | S f, c :: r =>
      if (c =? 34)%N then Ok (string_of_chars acc, r)
      else if (c =? 92)%N then
        match r with
        | [] => Raise (decode_error "Unterminated string starting at")
        | e :: r' =>
            if (e =? 117)%N then
              match read_hex4 r' with
              | None => Raise (decode_error "Invalid \uXXXX escape")
              | Some (u, r'') =>
                  match (if between 55296 56319 u
                         then read_low_surrogate r'' else None) with
                  | Some (u2, r3) =>
                      scan_string f r3
                        (acc ++ utf8_of_code_point
                                  (65536 + (u - 55296) * 1024 + (u2 - 56320)))
                  | None => scan_string f r'' (acc ++ utf8_of_code_point u)
                  end
              end
            else
              match simple_escape e with
              | Some b => scan_string f r' (acc ++ [b])
              | None => Raise (decode_error "Invalid \escape")
              end
        end
      else if (c <? 32)%N then
        Raise (decode_error "Invalid control character at")
      else scan_string f r (acc ++ [c])
  end.

Fixpoint take_digits (cs : list N) (acc : N) : N * list N :=
  match cs with
  | c :: r => if is_digit c then take_digits r (acc * 10 + (c - 48)) else (acc, cs)
  | [] => (acc, [])
  end.

Definition starts_digit (cs : list N) : bool :=
  match cs with c :: _ => is_digit c | [] => false end.

(** Whether the text after the digits of an integer goes on as a float. *)
Definition float_follows (cs : list N) : bool :=
  match cs with
  | 46%N :: r => starts_digit r
  | c :: r =>
      if ((c =? 101) || (c =? 69))%N then
        match r with
        | s :: r' =>
            if ((s =? 43) || (s =? 45))%N then starts_digit r'
            else is_digit s
        | [] => false
        end
      else false
  | [] => false
  end.

(** [0] or a digit string without a leading zero. *)
Definition read_int (cs : list N) : option (N * list N) :=
  match cs with
  | c :: r =>
      if (c =? 48)%N then Some (0%N, r)
      else if is_digit c then Some (take_digits cs 0)
      else None
  | [] => None
  end.

Fixpoint strip_prefix (lit cs : list N) : option (list N) :=
  match lit, cs with
  | [], _ => Some cs
  | l :: lit', c :: cs' => if (l =? c)%N then strip_prefix lit' cs' else None
  | _ :: _, [] => None
  end.

Definition read_number (negative : bool) (cs : list N)
    : result (json * list N) :=
  match read_int cs with
  | None => Raise (decode_error "Expecting value")
  | Some (n, r) =>
      if float_follows r then
        Raise (mkExn NotImplementedError "float literal")
      else Ok (JInt (if negative then - Z.of_N n else Z.of_N n)%Z, r)
  end.

Definition read_literal (cs : list N) : result (json * list N) :=
  let word (w : string) (v : json) : option (json * list N) :=
    match strip_prefix (chars_of w) cs with
    | Some r => Some (v, r)
    | None => None
    end in
  match word "null" JNull, word "true" (JBool true), word "false" (JBool false),
        word "NaN" (JFloat "nan"), word "Infinity" (JFloat "inf"),
        word "-Infinity" (JFloat "-inf") with
  | Some x, _, _, _, _, _ | _, Some x, _, _, _, _ | _, _, Some x, _, _, _
  | _, _, _, Some x, _, _ | _, _, _, _, Some x, _ | _, _, _, _, _, Some x =>
      Ok x
  | None, None, None, None, None, None =>
      match cs with
      | 45%N :: r => read_number true r
      | _ => read_number false cs
      end
  end.

Section Reader.

(** The reader of one value, for the elements of an array and the members
    of an object. *)
Variable read_value : list N -> result (json * list N).

(** After an element: [,] and the next element, or []]. *)
Fixpoint read_elements (fuel : nat) (cs : list N) (acc : list json)
    : result (json * list N) :=
  match fuel with
  | O => Raise (decode_error "Expecting value")
  | S f =>
      vr <- read_value cs ;;
      let acc' := (acc ++ [fst vr])%list in
      match skip_ws (snd vr) with
      | 44%N :: r => read_elements f (skip_ws r) acc'
      | 93%N :: r => Ok (JList acc', r)
      | _ => Raise (decode_error "Expecting ',' delimiter")
      end
  end.

Fixpoint read_members (fuel : nat) (cs : list N) (acc : dict)
    : result (json * list N) :=
  match fuel, cs with
  | S f, 34%N :: r =>
      kr <- scan_string (List.length r) r [] ;;
      match skip_ws (snd kr) with
      | 58%N :: r' =>
          vr <- read_value (skip_ws r') ;;
          let acc' := dict_set acc (fst kr) (fst vr) in
          match skip_ws (snd vr) with
          | 44%N :: r'' => read_members f (skip_ws r'') acc'
          | 125%N :: r'' => Ok (JDict acc', r'')
          | _ => Raise (decode_error "Expecting ',' delimiter")
          end
      | _ => Raise (decode_error "Expecting ':' delimiter")
      end
  | _, _ =>
      Raise (decode_error
               "Expecting property name enclosed in double quotes")
  end.

End Reader.

Fixpoint read_value (fuel : nat) (cs : list N) : result (json * list N) :=
  match fuel with
  | O => Raise (mkExn RecursionError "maximum recursion depth exceeded")
  | S f =>
      match cs with
      | [] => Raise (decode_error "Expecting value")
      | c :: r =>
          if (c =? 34)%N then
            sr <- scan_string (List.length r) r [] ;;
            Ok (JStr (fst sr), snd sr)
          else if (c =? 91)%N then
            match skip_ws r with
            | 93%N :: r' => Ok (JList [], r')
            | r' => read_elements (read_value f) (List.length r') r' []
            end
          else if (c =? 123)%N then
            match skip_ws r with
            | 125%N :: r' => Ok (JDict [], r')
            | r' => read_members (read_value f) (List.length r') r' []
            end
          else read_literal cs
      end
  end.

Definition loads (s : string) : result json :=
  let cs := chars_of s in
  match strip_prefix [239; 187; 191]%N cs with
  | Some _ =>
      Raise (decode_error "Unexpected UTF-8 BOM (decode using utf-8-sig)")
  | None =>
      vr <- read_value (S (List.length cs)) (skip_ws cs) ;;
      match skip_ws (snd vr) with
      | [] => Ok (fst vr)
      | _ => Raise (decode_error "Extra data")
      end
  end.

Definition lib : PyLib :=
  Build_PyLib upper lower encode_utf8 decode_utf8 base64_decode loads dumps.

End RefPy.

(** ** What the specification speaks of *)

(** The shape-A method field, nested at [requestContext.http.method]. *)
Definition shape_a_method (event : json) : option json :=
  match event with
  | JDict d =>
      match dict_lookup d "requestContext" with
      | Some (JDict rc) =>
          match dict_lookup rc "http" with
          | Some (JDict http) => dict_lookup http "method"
          | _ => None
          end
      | _ => None
      end
  | _ => None
  end.

(** The shape-B method field, [httpMethod]. *)
Definition shape_b_method (event : json) : option json :=
  match event with
  | JDict d => dict_lookup d "httpMethod"
  | _ => None
  end.

(** The method as the specification resolves it: the shape-A field when it
    holds something (null and the empty string hold nothing), else the
    shape-B field when the event has it, else the default. *)
Definition resolved_method (event : json) : json :=
  let shape_b :=
    match shape_b_method event with
    | Some m => m
    | None => JStr "GET"
    end in
  match shape_a_method event with
  | Some m => if truthy m then m else shape_b
  | None => shape_b
  end.

Definition is_digit_char (c : ascii) : bool :=
  ((48 <=? N_of_ascii c) && (N_of_ascii c <=? 57))%N.

(** A picture of a text: [d] stands for one decimal digit, any other
    character for itself. *)
Fixpoint matches_picture (picture s : string) : bool :=
  match picture, s with
  | EmptyString, EmptyString => true
  | String p picture', String c s' =>
      (if Ascii.eqb p "d" then is_digit_char c else Ascii.eqb p c)
      && matches_picture picture' s'
  | _, _ => false
  end.

(** An ISO-8601 date and time with the UTC offset, with or without
    microseconds. *)
Definition iso8601_utc (s : string) : bool :=
  matches_picture "dddd-dd-ddTdd:dd:dd+00:00" s
  || matches_picture "dddd-dd-ddTdd:dd:dd.dddddd+00:00" s.

(** The response of the failure boundary for the exception [e]. *)
Definition internal_server_error {L : PyLib} (e : exn) : response :=
  {| statusCode := 500;
     headers := CORS_HEADERS;
     body := json_dumps (JDict [("error", JStr "Internal Server Error");
                                ("detail", JStr (exn_str e))]);
     isBase64Encoded := false |}.

(** The path as the specification resolves it: the shape-A raw path when
    it holds something, else the shape-B path, else ["/"]. *)
Definition resolved_path (d : dict) : json :=
  let raw := dict_get d "rawPath" JNull in
  if truthy raw then raw
  else let p := dict_get d "path" JNull in
       if truthy p then p else JStr "/".

(** The query as the specification resolves it. *)
Definition resolved_query (d : dict) : json :=
  let q := dict_get d "queryStringParameters" JNull in
  if truthy q then q else JDict [].

Definition is_str (x : json) : bool :=
  match x with JStr _ => true | _ => false end.

Definition is_dict (x : json) : bool :=
  match x with JDict _ => true | _ => false end.

(** A field that holds nothing (it is missing, null, or false to Python) or
    holds a value of the documented type. *)
Definition nothing_or (documented : json -> bool) (x : json) : bool :=
  negb (truthy x) || documented x.

(** [requestContext], and [http] under it, are mappings when present. *)
Definition shape_a_ok (d : dict) : bool :=
  match dict_lookup d "requestContext" with
  | None => true
  | Some (JDict rc) =>
      match dict_lookup rc "http" with
      | None | Some (JDict _) => true
      | Some _ => false
      end
  | Some _ => false
  end.

(** The header map of an event; empty when the field holds nothing. *)
Definition header_map (d : dict) : dict :=
  match dict_get d "headers" JNull with
  | JDict hs => hs
  | _ => []
  end.

(** The body string of an event; empty when the field holds nothing. *)
Definition body_text (d : dict) : string :=
  match dict_get d "body" JNull with
  | JStr s => s
  | _ => ""
  end.

Definition base64_flag (d : dict) : bool :=
  truthy (dict_get d "isBase64Encoded" (JBool false)).

Section EventShape.

Context {L : PyLib}.

(** The [content-type] header once the keys are lowercased; the empty
    string when there is none. *)
Definition content_type (d : dict) : json :=
  dict_get (lower_keys (header_map d)) "content-type" (JStr "").

(** The fields the normalizer reads have the shapes of the data model: the
    shape-A structures are mappings, the method is a string, [headers] is a
    mapping whose [content-type] is a string, [body] is a string. *)
Definition documented_shape (d : dict) : bool :=
  shape_a_ok d
  && is_str (resolved_method (JDict d))
  && nothing_or is_dict (dict_get d "headers" JNull)
  && is_str (content_type d)
  && nothing_or is_str (dict_get d "body" JNull).

(** The bytes of the body: base64-decoded when the flag is set and there is
    a body, else the UTF-8 encoding of the body string. *)
Definition body_decoding (d : dict) : result bytes :=
  if base64_flag d && negb (body_text d =? "")
  then b64decode (body_text d)
  else str_encode (body_text d).

(** Whether the body is to be read as JSON: the content type names
    [application/json] and there are bytes. *)
Definition json_expected (d : dict) (raw : bytes) : bool :=
  match content_type d with
  | JStr c => str_contains "application/json" c
  | _ => false
  end
  && match raw with [] => false | _ => true end.

End EventShape.

(** Whether an optional field holds nothing: it is missing, or its value
    is false to Python (null, the empty string). *)
Definition holds_nothing (field : option json) : bool :=
  match field with
  | None => true
  | Some x => negb (truthy x)
  end.

Section EventOutcome.

Context {L : PyLib}.

(** The request with the given method and body that belongs to an event:
    the resolved path and query and the lowercased headers. *)
Definition request_of (d : dict) (method : string) (body_bytes : object)
    (body_json : json) : request :=
  {| req_method := method;
     req_path := resolved_path d;
     req_headers := lower_keys (header_map d);
     req_query := resolved_query d;
     req_body_bytes := body_bytes;
     req_body_json := body_json |}.

(** [json.loads(raw.decode("utf-8"))] *)
Definition loads_utf8 (raw : bytes) : result json :=
  s <- bytes_decode raw ;; json_loads s.

(** The body bytes an event yields.  A body that holds nothing gives the
    encoding of the empty string, whatever the flag; a string is
    base64-decoded when the flag is set and UTF-8-encoded otherwise; a
    value that is not a string is no input of the base64 decoder, and
    unflagged it is handed on as it is. *)
Inductive body_bytes_of (d : dict) : object -> Prop :=
| bytes_of_nothing (raw : bytes) :
    truthy (dict_get d "body" JNull) = false ->
    str_encode "" = Ok raw ->
    body_bytes_of d (OBytes raw)
| bytes_of_base64 (s : string) (raw : bytes) :
    dict_get d "body" JNull = JStr s -> s <> "" ->
    base64_flag d = true ->
    b64decode s = Ok raw ->
    body_bytes_of d (OBytes raw)
| bytes_of_text (s : string) (raw : bytes) :
    dict_get d "body" JNull = JStr s -> s <> "" ->
    base64_flag d = false ->
    str_encode s = Ok raw ->
    body_bytes_of d (OBytes raw)
| bytes_of_object (b : json) :
    dict_get d "body" JNull = b -> truthy b = true -> is_str b = false ->
    base64_flag d = false ->
    body_bytes_of d (OJson b).

(** The parsed body an event yields for its body bytes.  The test
    ["application/json" in content_type] must itself return (the header is
    a str, a list or a dict).  When it fails or the body is empty, nothing
    is parsed; otherwise the body must be bytes, and the parsed body is
    what [json.loads] returns of their UTF-8 text, or absent when that
    raises [JSONDecodeError]. *)
Inductive parsed_body_of (d : dict) (body_bytes : object) : json -> Prop :=
| parsed_nothing (is_json : bool) :
    contains "application/json" (content_type d) = Ok is_json ->
    is_json && object_truthy body_bytes = false ->
    parsed_body_of d body_bytes JNull
| parsed_value (raw : bytes) (v : json) :
    contains "application/json" (content_type d) = Ok true ->
    body_bytes = OBytes raw -> raw <> [] ->
    loads_utf8 raw = Ok v ->
    parsed_body_of d body_bytes v
| parsed_malformed (raw : bytes) (e : exn) :
    contains "application/json" (content_type d) = Ok true ->
    body_bytes = OBytes raw -> raw <> [] ->
    loads_utf8 raw = Raise e ->
    exn_class e = JSONDecodeError ->
    parsed_body_of d body_bytes JNull.

End EventOutcome.

(** ** Events and a clock reading to run the handler on *)

Definition noon : datetime := mkDatetime 2024 5 17 12 0 0 250000.


(** A body whose base64 text decodes to the single byte [0x80], sent as
    JSON. *)
Definition event_bad_utf8 : dict :=
  [("isBase64Encoded", JBool true);
   ("body", JStr "gA==");
   ("headers", JDict [("content-type", JStr "application/json")])].


(** [POST /echo] with the JSON body [{"a": 1}], in the shape-A envelope. *)
Definition event_echo : dict :=
  [("requestContext", JDict [("http", JDict [("method", JStr "post")])]);
   ("rawPath", JStr "/echo");
   ("headers", JDict [("Content-Type", JStr "application/json")]);
   ("body", JStr (RefPy.dumps (JDict [("a", JInt 1)])))].

(** [GET /unknown?x=1], in the shape-B envelope. *)
Definition event_unknown : dict :=
  [("httpMethod", JStr "GET");
   ("path", JStr "/unknown");
   ("queryStringParameters", JDict [("x", JStr "1")])].

(** [{"requestContext": null}]: no method field at all. *)
Definition event_null_context : dict := [("requestContext", JNull)].

(** [PUT /items/7] in the shape-A envelope, with a shape-B method beside
    it. *)
Definition event_both_shapes : dict :=
  [("requestContext", JDict [("http", JDict [("method", JStr "put")])]);
   ("httpMethod", JStr "GET");
   ("rawPath", JStr "/items/7")].

(** ** Properties *)

(** *** Strings *)

Lemma prefix_append (p s : string) : prefix p (p ++ s) = true.
Proof.
  induction p as [|c p IH]; simpl.
  - destruct s; reflexivity.
  - destruct (ascii_dec c c) as [_|n]; [exact IH | contradiction].
Qed.

(** A string starts with [p] exactly when it is [p] followed by a rest. *)
Lemma prefix_split (p s : string) :
  prefix p s = true -> exists rest, s = p ++ rest.
Proof.
  revert s; induction p as [|c p IH]; intros s H.
  - exists s; reflexivity.
  - destruct s as [|c' s]; simpl in H; [discriminate|].
    destruct (ascii_dec c c') as [->|_]; [|discriminate].
    destruct (IH s H) as [rest ->]. exists rest; reflexivity.
Qed.

Lemma str_drop_append (p s : string) : str_drop (String.length p) (p ++ s) = s.
Proof. induction p; simpl; [destruct s; reflexivity | assumption]. Qed.

Lemma str_partition_prefix (sep s : string) :
  prefix sep s = true ->
  str_partition sep s = Some ("", str_drop (String.length sep) s).
Proof. intros H; destruct s; cbn [str_partition]; rewrite H; reflexivity. Qed.

(** [s.split(p, 1)[1]] is what follows the prefix [p] of [s]. *)
Lemma str_split1_prefix (p s : string) :
  list_index (str_split1 p (p ++ s)) 1 = Ok s.
Proof.
  unfold str_split1.
  rewrite (str_partition_prefix _ _ (prefix_append p s)), str_drop_append.
  reflexivity.
Qed.

(** *** Exceptions *)

(** Every class of the model derives from [Exception]. *)
Lemma isinstance_Exception (e : exn) : isinstance e Exception = true.
Proof. destruct e as [c s]; destruct c; reflexivity. Qed.

(** [except json.JSONDecodeError] takes that class only. *)
Lemma isinstance_JSONDecodeError (e : exn) :
  isinstance e JSONDecodeError = true <-> exn_class e = JSONDecodeError.
Proof.
  destruct e as [c s]; destruct c; simpl; split; intros H;
    solve [reflexivity | discriminate].
Qed.

(** *** The response builder and the router *)

Section Router.

Context {L : PyLib}.

(** Without handler headers, the envelope carries the fixed header set and
    the binary flag it was given. *)
Lemma _response_default (status : Z) (b : json) (is_base64 : bool) :
  headers (_response status b None is_base64) = CORS_HEADERS
  /\ isBase64Encoded (_response status b None is_base64) = is_base64
  /\ statusCode (_response status b None is_base64) = status.
Proof. repeat split. Qed.

(** A dict body is serialized. *)
Lemma _response_dict (status : Z) (d : dict) :
  _response status (JDict d) None false =
  {| statusCode := status; headers := CORS_HEADERS;
     body := json_dumps (JDict d); isBase64Encoded := false |}.
Proof. reflexivity. Qed.

(** A str body goes out as it is. *)
Lemma _response_str (status : Z) (s : string) :
  _response status (JStr s) None false =
  {| statusCode := status; headers := CORS_HEADERS;
     body := s; isBase64Encoded := false |}.
Proof. reflexivity. Qed.

Lemma route_rest_envelope (method : string) (path : json) :
  headers (route_rest method path) = CORS_HEADERS
  /\ isBase64Encoded (route_rest method path) = false.
Proof. unfold route_rest; destruct (method =? "OPTIONS"); split; reflexivity. Qed.

(** Whatever rule answers, the envelope has the fixed headers and a false
    binary flag. *)
Lemma route_envelope (now : datetime) (method : string)
    (path query body_json : json) (r : response) :
  route now method path query body_json = Ok r ->
  headers r = CORS_HEADERS /\ isBase64Encoded r = false.
Proof.
  unfold route. intros H.
  repeat match type of H with
         | (if ?c then _ else _) = _ => destruct c
         | bind ?c _ = _ => destruct c; cbn [bind] in H
         | Ok _ = Ok _ => injection H as <-
         | Raise _ = Ok _ => discriminate H
         end;
    try (split; reflexivity); apply route_rest_envelope.
Qed.

(** The failure boundary always answers: with the router's response, or
    with a 500 built from the exception. *)
Lemma lambda_handler_answer (now : datetime) (event context : json) :
  lambda_handler now event context =
  Ok match (r <- _parse_event event ;;
            route now (req_method r) (req_path r) (req_query r)
              (req_body_json r)) with
     | Ok resp => resp
     | Raise e => internal_server_error e
     end.
Proof.
  unfold lambda_handler, try_except.
  destruct (bind (_parse_event event) _) as [resp|e]; [reflexivity|].
  rewrite isinstance_Exception. reflexivity.
Qed.

(** C5: an OPTIONS request gets 204 with an empty body whatever its path;
    no earlier rule takes it, and the method test of the /items/ rule in
    particular fails on it. *)
Theorem route_options_any_path (now : datetime) (path : string)
    (query body_json : json) :
  route now "OPTIONS" (JStr path) query body_json =
    Ok {| statusCode := 204; headers := CORS_HEADERS;
          body := ""; isBase64Encoded := false |}
  /\ existsb (String.eqb "OPTIONS") ["GET"; "PUT"; "DELETE"] = false.
Proof.
  split; [|reflexivity].
  unfold route; cbn.
  rewrite andb_false_r. reflexivity.
Qed.

(** C10: the router never reads the query.  Two requests that differ in
    the query only get the same result; with two clock readings as well,
    the results are still the same off GET /health, and on GET /health they
    are two 200 responses with the same headers and flag, whose bodies
    differ in the time only. *)
Theorem route_ignores_query (now1 now2 : datetime) (method : string)
    (path query1 query2 body_json : json) :
  route now1 method path query1 body_json
    = route now1 method path query2 body_json
  /\ (~ (method = "GET" /\ path = JStr "/health") ->
      route now1 method path query1 body_json
        = route now2 method path query2 body_json)
  /\ (method = "GET" /\ path = JStr "/health" ->
      forall now,
        route now method path query1 body_json =
          Ok {| statusCode := 200; headers := CORS_HEADERS;
                body := json_dumps (JDict [("ok", JBool true);
                                           ("time", JStr (isoformat now))]);
                isBase64Encoded := false |}).
Proof.
  split; [reflexivity|split].
  - intros Hn. unfold route.
    destruct ((method =? "GET") && eq_str path "/health") eqn:E;
      [|reflexivity].
    exfalso; apply Hn.
    apply andb_true_iff in E as [Em Ep].
    apply String.eqb_eq in Em.
    destruct path; try discriminate Ep.
    apply String.eqb_eq in Ep. subst; split; reflexivity.
  - intros [-> ->] now. reflexivity.
Qed.

End Router.

(** *** dict *)

Lemma dict_lookup_set (d : dict) (k k' : string) (v : json) :
  dict_lookup (dict_set d k v) k' =
  if k =? k' then Some v else dict_lookup d k'.
Proof.
  induction d as [|[k0 v0] d IH]; simpl.
  - reflexivity.
  - destruct (k0 =? k) eqn:E0; simpl.
    + apply String.eqb_eq in E0; subst k0.
      destruct (k =? k'); reflexivity.
    + rewrite IH. destruct (k0 =? k') eqn:E1; [|reflexivity].
      apply String.eqb_eq in E1; subst k0.
      rewrite String.eqb_sym, E0. reflexivity.
Qed.

Lemma dict_lookup_absent (d : dict) (k : string) :
  ~ In k (map fst d) -> dict_lookup d k = None.
Proof.
  induction d as [|[k0 v0] d IH]; simpl; intros H; [reflexivity|].
  destruct (k0 =? k) eqn:E.
  - apply String.eqb_eq in E. exfalso; apply H; left; exact E.
  - apply IH. intros Hin; apply H; right; exact Hin.
Qed.

(** In [{**base, **over}] a key of [over] has the value [over] gives it, and
    any other key the value it has in [base]. *)
Lemma dict_lookup_merge (over base : dict) (k : string) :
  NoDup (map fst over) ->
  dict_lookup (dict_merge base over) k =
  match dict_lookup over k with
  | Some v => Some v
  | None => dict_lookup base k
  end.
Proof.
  unfold dict_merge. revert base.
  induction over as [|[k1 v1] over IH]; intros base Hnd; simpl.
  - reflexivity.
  - inversion Hnd as [|? ? Hnotin Hnd']; subst.
    rewrite (IH _ Hnd'), dict_lookup_set.
    destruct (k1 =? k) eqn:E; [|reflexivity].
    apply String.eqb_eq in E; subst k1.
    rewrite (dict_lookup_absent _ _ Hnotin). reflexivity.
Qed.

Lemma dict_set_In (d : dict) (k k' : string) (v v' : json) :
  In (k, v) (dict_set d k' v') -> (k = k' /\ v = v') \/ In (k, v) d.
Proof.
  induction d as [|[k0 v0] d IH]; simpl.
  - intros [H|[]]. injection H as <- <-. left; split; reflexivity.
  - destruct (k0 =? k') eqn:E; simpl.
    + apply String.eqb_eq in E; subst k0.
      intros [H|H]; [injection H as <- <-; left; split; reflexivity|].
      right; right; exact H.
    + intros [H|H]; [right; left; exact H|].
      destruct (IH H) as [Hk|Hin]; [left; exact Hk | right; right; exact Hin].
Qed.

(** *** The timestamp *)

Lemma is_digit_digit (n : N) : is_digit_char (digit n) = true.
Proof.
  unfold digit.
  assert (H : (n mod 10 < 10)%N) by (apply N.mod_upper_bound; discriminate).
  generalize dependent (n mod 10)%N. intros m H.
  assert (C : (m = 0 \/ m = 1 \/ m = 2 \/ m = 3 \/ m = 4 \/ m = 5
               \/ m = 6 \/ m = 7 \/ m = 8 \/ m = 9)%N) by lia.
  repeat destruct C as [C|C]; rewrite C; reflexivity.
Qed.

Lemma zero_padded_fixed (w : nat) (n : N) :
  (n < 10 ^ N.of_nat w)%N -> zero_padded w n = fixed_width w n.
Proof.
  intros H. unfold zero_padded.
  apply N.ltb_lt in H. rewrite H. reflexivity.
Qed.

Section Timestamp.

#[local] Arguments digit : simpl never.

(** The rendering of a clock reading has the ISO-8601 shape with the UTC
    offset. *)
Lemma isoformat_shape (t : datetime) :
  valid_datetime t = true -> iso8601_utc (isoformat t) = true.
Proof.
  unfold valid_datetime. intros H.
  repeat (apply andb_true_iff in H; destruct H as [H ?]).
  repeat match goal with
         | X : (_ <=? _)%N = true |- _ => apply N.leb_le in X
         end.
  unfold isoformat, iso8601_utc.
  rewrite (zero_padded_fixed 4), !(zero_padded_fixed 2)
    by (cbn; lia).
  destruct (microsecond t =? 0)%N.
  - cbn. rewrite !is_digit_digit. reflexivity.
  - rewrite (zero_padded_fixed 6) by (cbn; lia).
    cbn. rewrite !is_digit_digit. reflexivity.
Qed.

End Timestamp.

(** *** The routes and the failure boundary *)

Section Routes.

Context {L : PyLib}.

(** C1: on a path that starts with [/items/], for GET, PUT and DELETE, the
    router takes what follows the prefix as the item id and answers 400
    with [{error: "Missing item id"}] when the id is empty, else on GET 200
    with [{id, name: "Item " + id}], on PUT 200 with [{updated: id, body}]
    and on DELETE 204 with an empty body. *)
Theorem route_items (now : datetime) (method item_id : string)
    (query body_json : json) :
  In method ["GET"; "PUT"; "DELETE"] ->
  route now method (JStr ("/items/" ++ item_id)) query body_json =
  Ok (if item_id =? "" then
        {| statusCode := 400; headers := CORS_HEADERS;
           body := json_dumps (JDict [("error", JStr "Missing item id")]);
           isBase64Encoded := false |}
      else if method =? "GET" then
        {| statusCode := 200; headers := CORS_HEADERS;
           body := json_dumps (JDict [("id", JStr item_id);
                                      ("name", JStr ("Item " ++ item_id))]);
           isBase64Encoded := false |}
      else if method =? "PUT" then
        {| statusCode := 200; headers := CORS_HEADERS;
           body := json_dumps (JDict [("updated", JStr item_id);
                                      ("body", body_json)]);
           isBase64Encoded := false |}
      else
        {| statusCode := 204; headers := CORS_HEADERS;
           body := ""; isBase64Encoded := false |}).
Proof.
  intros Hm. simpl in Hm.
  destruct Hm as [<-|[<-|[<-|[]]]];
    destruct item_id as [|c rest]; reflexivity.
Qed.

(** C6: the entry point always returns a response.  An exception raised
    by the normalizer or by the router becomes the 500 response whose body
    holds the fixed message and [str(e)]; otherwise the router's response
    is returned. *)
Theorem lambda_handler_never_raises (now : datetime) (event context : json) :
  exists resp,
    lambda_handler now event context = Ok resp
    /\ (forall e, _parse_event event = Raise e ->
          resp = internal_server_error e /\ statusCode resp = 500%Z)
    /\ (forall r e,
          _parse_event event = Ok r ->
          route now (req_method r) (req_path r) (req_query r)
            (req_body_json r) = Raise e ->
          resp = internal_server_error e /\ statusCode resp = 500%Z)
    /\ (forall r routed,
          _parse_event event = Ok r ->
          route now (req_method r) (req_path r) (req_query r)
            (req_body_json r) = Ok routed ->
          resp = routed).
Proof.
  eexists. split; [apply lambda_handler_answer|].
  split; [|split].
  - intros e He. rewrite He. split; reflexivity.
  - intros r e Hr He. rewrite Hr. cbn [bind]. rewrite He. split; reflexivity.
  - intros r routed Hr Ho. rewrite Hr. cbn [bind]. rewrite Ho. reflexivity.
Qed.

(** C7: the fixed cross-origin headers.  A handler-supplied header map
    (a dict: its keys are distinct) overrides the base entry of each of its
    keys and leaves the other base entries as they are, so the three keys
    are always there; without handler headers, which is how every route and
    the failure boundary build their response, the header map is the fixed
    set itself. *)
Theorem cors_headers_merge (status : Z) (b : json) (over : dict)
    (is_base64 : bool) :
  NoDup (map fst over) ->
  (forall k,
     dict_lookup (headers (_response status b (Some over) is_base64)) k =
     match dict_lookup over k with
     | Some v => Some v
     | None => dict_lookup CORS_HEADERS k
     end)
  /\ (forall k, In k (map fst CORS_HEADERS) ->
        dict_lookup (headers (_response status b (Some over) is_base64)) k
          <> None)
  /\ headers (_response status b None is_base64) = CORS_HEADERS
  /\ CORS_HEADERS =
       [("Access-Control-Allow-Origin", JStr "*");
        ("Access-Control-Allow-Methods",
           JStr "GET,POST,PUT,PATCH,DELETE,OPTIONS");
        ("Access-Control-Allow-Headers",
           JStr "Content-Type,Authorization,X-Requested-With")]
  /\ (forall now method path query body_json r,
        route now method path query body_json = Ok r ->
        headers r = CORS_HEADERS)
  /\ (forall now event context,
        exists r, lambda_handler now event context = Ok r
                  /\ headers r = CORS_HEADERS).
Proof.
  intros Hnd.
  assert (Hmerge : forall k,
     dict_lookup (headers (_response status b (Some over) is_base64)) k =
     match dict_lookup over k with
     | Some v => Some v
     | None => dict_lookup CORS_HEADERS k
     end).
  { intros k. cbn [_response headers]. apply dict_lookup_merge, Hnd. }
  split; [exact Hmerge|]. split; [|split; [reflexivity|]].
  { intros k Hk. rewrite Hmerge.
    destruct (dict_lookup over k); [discriminate|].
    simpl in Hk. destruct Hk as [<-|[<-|[<-|[]]]]; discriminate. }
  split; [reflexivity|]. split.
  - intros now method path query body_json r Hr.
    apply (route_envelope _ _ _ _ _ _ Hr).
  - intros now event context. eexists.
    split; [apply lambda_handler_answer|].
    destruct (bind (_parse_event event) _) as [resp|e] eqn:E; [|reflexivity].
    destruct (_parse_event event) as [r|e']; [|discriminate E].
    apply (route_envelope _ _ _ _ _ _ E).
Qed.

(** C8: GET /health answers 200 with [{ok: true, time}], where [time] is
    the clock reading rendered in ISO-8601 form with the UTC offset. *)
Theorem route_health (now : datetime) (query body_json : json) :
  valid_datetime now = true ->
  route now "GET" (JStr "/health") query body_json =
    Ok {| statusCode := 200; headers := CORS_HEADERS;
          body := json_dumps (JDict [("ok", JBool true);
                                     ("time", JStr (isoformat now))]);
          isBase64Encoded := false |}
  /\ iso8601_utc (isoformat now) = true.
Proof.
  intros Hv. split; [reflexivity | apply isoformat_shape, Hv].
Qed.

(** C9: the binary flag of a response is false: for whatever the router
    answers, the 404 included, and for whatever the entry point returns,
    the 500 included. *)
Theorem binary_flag_false :
  (forall now method path query body_json r,
     route now method path query body_json = Ok r ->
     isBase64Encoded r = false)
  /\ (forall method path, isBase64Encoded (route_rest method path) = false)
  /\ (forall e, isBase64Encoded (internal_server_error e) = false)
  /\ (forall now event context,
        exists r, lambda_handler now event context = Ok r
                  /\ isBase64Encoded r = false).
Proof.
  split; [|split; [|split]].
  - intros now method path query body_json r Hr.
    apply (route_envelope _ _ _ _ _ _ Hr).
  - intros method path. apply route_rest_envelope.
  - reflexivity.
  - intros now event context. eexists.
    split; [apply lambda_handler_answer|].
    destruct (bind (_parse_event event) _) as [resp|e] eqn:E; [|reflexivity].
    destruct (_parse_event event) as [r|e']; [|discriminate E].
    apply (route_envelope _ _ _ _ _ _ E).
Qed.

(** POST /echo sends the parsed body back, [null] when there is none. *)
Theorem route_echo (now : datetime) (query body_json : json) :
  route now "POST" (JStr "/echo") query body_json =
    Ok {| statusCode := 200; headers := CORS_HEADERS;
          body := json_dumps
                    (JDict [("received", body_json);
                            ("note",
                             JStr "POST JSON to /echo and I’ll send it back.")]);
          isBase64Encoded := false |}.
Proof. reflexivity. Qed.

(** GET / lists the paths. *)
Theorem route_home (now : datetime) (query body_json : json) :
  route now "GET" (JStr "/") query body_json =
    Ok {| statusCode := 200; headers := CORS_HEADERS;
          body := json_dumps
                    (JDict [("message", JStr "Hello from Lambda webserver 👋");
                            ("paths", JList [JStr "/"; JStr "/health";
                                             JStr "/echo";
                                             JStr "/items/{id}"])]);
          isBase64Encoded := false |}.
Proof. reflexivity. Qed.

(** A request no rule takes gets 404 with the method and the path in the
    body. *)
Theorem route_not_found (now : datetime) (method path : string)
    (query body_json : json) :
  ~ (method = "GET" /\ (path = "/health" \/ path = "/")) ->
  ~ (method = "POST" /\ path = "/echo") ->
  ~ (prefix "/items/" path = true /\ In method ["GET"; "PUT"; "DELETE"]) ->
  method <> "OPTIONS" ->
  route now method (JStr path) query body_json =
    Ok {| statusCode := 404; headers := CORS_HEADERS;
          body := json_dumps (JDict [("error", JStr "Not found");
                                     ("method", JStr method);
                                     ("path", JStr path)]);
          isBase64Encoded := false |}.
Proof.
  intros Hget Hpost Hitems Hopt.
  unfold route; cbn [eq_str].
  destruct ((method =? "GET") && (path =? "/health")) eqn:E1.
  { apply andb_true_iff in E1 as [Em Ep].
    apply String.eqb_eq in Em, Ep. exfalso; apply Hget; auto. }
  destruct ((method =? "GET") && (path =? "/")) eqn:E2.
  { apply andb_true_iff in E2 as [Em Ep].
    apply String.eqb_eq in Em, Ep. exfalso; apply Hget; auto. }
  destruct ((method =? "POST") && (path =? "/echo")) eqn:E3.
  { apply andb_true_iff in E3 as [Em Ep].
    apply String.eqb_eq in Em, Ep. exfalso; apply Hpost; auto. }
  cbn [startswith bind].
  destruct (prefix "/items/" path
            && existsb (String.eqb method) ["GET"; "PUT"; "DELETE"]) eqn:E4.
  { apply andb_true_iff in E4 as [Ep Em].
    exfalso; apply Hitems; split; [exact Ep|].
    apply existsb_exists in Em as [x [Hx Ex]].
    apply String.eqb_eq in Ex; subst x. exact Hx. }
  unfold route_rest.
  destruct (method =? "OPTIONS") eqn:E5.
  { apply String.eqb_eq in E5. contradiction. }
  reflexivity.
Qed.

(** A path that is not a str, which the normalizer passes on as the event
    held it, stops the router at [path.startswith]; the entry point turns
    that into a 500. *)
Theorem route_path_not_str (now : datetime) (method : string)
    (path query body_json : json) :
  is_str path = false ->
  route now method path query body_json =
    Raise (attribute_error (type_name path) "startswith").
Proof.
  intros Hp. unfold route.
  destruct path; try discriminate Hp; cbn [eq_str];
    rewrite !andb_false_r; reflexivity.
Qed.

End Routes.

(** *** The normalizer *)

Section Normalizer.

Context {L : PyLib}.

(** When the method expression returns, it returns the method the
    specification resolves. *)
Lemma event_method_resolved (event x : json) :
  event_method event = Ok x -> resolved_method event = x.
Proof.
  destruct event as [| | | | | |d]; try discriminate.
  unfold event_method, resolved_method, shape_a_method, shape_b_method,
    or_else, get, dict_get; cbn [bind].
  destruct (dict_lookup d "requestContext") as [[| | | | | |rc]|];
    cbn [bind type_name truthy dict_lookup]; try discriminate.
  - destruct (dict_lookup rc "http") as [[| | | | | |http]|];
      cbn [bind type_name truthy dict_lookup]; try discriminate.
    + destruct (dict_lookup http "method") as [m|].
      * destruct (truthy m); intros H; injection H as <-; reflexivity.
      * cbn [truthy]. intros H; injection H as <-; reflexivity.
    + intros H; injection H as <-; reflexivity.
  - intros H; injection H as <-; reflexivity.
Qed.

(** It returns whenever the shape-A structures are mappings. *)
Lemma event_method_returns (d : dict) :
  shape_a_ok d = true ->
  event_method (JDict d) = Ok (resolved_method (JDict d)).
Proof.
  unfold shape_a_ok, event_method, resolved_method, shape_a_method,
    shape_b_method, or_else, get, dict_get; cbn [bind].
  destruct (dict_lookup d "requestContext") as [[| | | | | |rc]|];
    cbn [bind type_name truthy dict_lookup]; try discriminate.
  - destruct (dict_lookup rc "http") as [[| | | | | |http]|];
      cbn [bind type_name truthy dict_lookup]; try discriminate.
    + destruct (dict_lookup http "method") as [m|]; [|reflexivity].
      destruct (truthy m); reflexivity.
    + reflexivity.
  - reflexivity.
Qed.

Lemma event_path_returns (d : dict) :
  event_path (JDict d) = Ok (resolved_path d).
Proof.
  unfold event_path, resolved_path, or_else, get; cbn [bind].
  destruct (truthy (dict_get d "rawPath" JNull)); [reflexivity|].
  destruct (truthy (dict_get d "path" JNull)); reflexivity.
Qed.

Lemma event_headers_returns (d : dict) :
  nothing_or is_dict (dict_get d "headers" JNull) = true ->
  (hs <- (h <- get (JDict d) "headers" JNull ;; or_else h (Ok (JDict []))) ;;
   items hs) = Ok (header_map d).
Proof.
  unfold nothing_or, header_map, or_else, get; cbn [bind].
  destruct (dict_get d "headers" JNull) as [| | | | | |hs]; intros H;
    try (destruct (truthy _) eqn:E; [discriminate H | reflexivity]).
  destruct hs; reflexivity.
Qed.

Lemma event_query_returns (d : dict) :
  fmap (fun query => match query with JNull => JDict [] | _ => query end)
    (q <- get (JDict d) "queryStringParameters" JNull ;;
     or_else q (Ok (JDict []))) = Ok (resolved_query d).
Proof.
  unfold resolved_query, or_else, get, fmap; cbn [bind].
  destruct (dict_get d "queryStringParameters" JNull) eqn:E;
    try reflexivity; destruct (truthy _); reflexivity.
Qed.

(** The body bytes of an event whose body is a string or nothing. *)
Lemma event_body_bytes_returns (d : dict) :
  nothing_or is_str (dict_get d "body" JNull) = true ->
  event_body_bytes (JDict d) = fmap OBytes (body_decoding d).
Proof.
  unfold nothing_or, event_body_bytes, body_decoding, body_text, base64_flag,
    or_else, get; cbn [bind].
  destruct (dict_get d "body" JNull) as [|b|n|r|s|l|m]; intros H;
    try (destruct (truthy _) eqn:E in H; [discriminate H|];
         rewrite E; cbn [bind truthy String.eqb negb];
         rewrite !andb_false_r; reflexivity).
  cbn [truthy]. destruct (s =? "") eqn:E; cbn [negb bind truthy].
  - apply String.eqb_eq in E; subst s.
    cbn [String.eqb negb]. rewrite !andb_false_r. reflexivity.
  - rewrite E. cbn [negb].
    destruct (truthy (dict_get d "isBase64Encoded" (JBool false)));
      reflexivity.
Qed.

(** The JSON reading of the body under a string content type. *)
Lemma event_body_json_unfold (d : dict) (raw : bytes) :
  is_str (content_type d) = true ->
  event_body_json (lower_keys (header_map d)) (OBytes raw) =
  if json_expected d raw then
    try_except (s <- bytes_decode raw ;; json_loads s)
      JSONDecodeError (fun _ => Ok JNull)
  else Ok JNull.
Proof.
  unfold event_body_json, json_expected.
  fold (content_type d).
  destruct (content_type d); try discriminate. intros _.
  cbn [contains bind object_truthy decode]. reflexivity.
Qed.

(** What the normalizer does on an event of the documented shapes, up to
    the two library calls on the body. *)
Lemma _parse_event_documented (d : dict) (m : string) (raw : bytes) :
  documented_shape d = true ->
  resolved_method (JDict d) = JStr m ->
  body_decoding d = Ok raw ->
  _parse_event (JDict d) =
  (body_json <- (if json_expected d raw then
                   try_except (s <- bytes_decode raw ;; json_loads s)
                     JSONDecodeError (fun _ => Ok JNull)
                 else Ok JNull) ;;
   Ok {| req_method := str_upper m;
         req_path := resolved_path d;
         req_headers := lower_keys (header_map d);
         req_query := resolved_query d;
         req_body_bytes := OBytes raw;
         req_body_json := body_json |}).
Proof.
  unfold documented_shape. intros Hs Hm Hraw.
  repeat (apply andb_true_iff in Hs; destruct Hs as [Hs ?]).
  unfold _parse_event.
  rewrite (event_method_returns d Hs), Hm, event_path_returns. cbn [bind].
  pose proof (event_headers_returns d) as Hh.
  cbn [bind] in Hh. unfold get in Hh. cbn [bind] in Hh.
  unfold get at 1. cbn [bind].
  destruct (or_else (dict_get d "headers" JNull) (Ok (JDict [])))
    as [hs|e] eqn:Eh; cbn [bind] in Hh |- *;
    [|specialize (Hh ltac:(assumption)); discriminate Hh].
  rewrite (Hh ltac:(assumption)). cbn [bind].
  pose proof (event_query_returns d) as Hq.
  unfold fmap, get in Hq. cbn [bind] in Hq.
  unfold get at 1. cbn [bind].
  destruct (or_else (dict_get d "queryStringParameters" JNull)
              (Ok (JDict []))) as [q|e] eqn:Eq; cbn [bind] in Hq |- *;
    [|discriminate Hq].
  injection Hq as Hq. rewrite Hq.
  rewrite (event_body_bytes_returns d) by assumption.
  rewrite Hraw. cbn [fmap bind].
  rewrite (event_body_json_unfold d raw) by assumption.
  reflexivity.
Qed.

(** A failure of the UTF-8 decoding of the body is not a
    [JSONDecodeError], and leaves the normalizer as it was raised. *)
Lemma _parse_event_decode_failure (d : dict) (raw : bytes) (e : exn) :
  documented_shape d = true ->
  body_decoding d = Ok raw ->
  json_expected d raw = true ->
  bytes_decode raw = Raise e ->
  isinstance e JSONDecodeError = false ->
  _parse_event (JDict d) = Raise e.
Proof.
  intros Hs Hraw Hj Hd He.
  assert (Hm : is_str (resolved_method (JDict d)) = true).
  { unfold documented_shape in Hs.
    repeat (apply andb_true_iff in Hs; destruct Hs as [Hs ?]). assumption. }
  destruct (resolved_method (JDict d)) as [| | | |m| |] eqn:Em;
    try discriminate Hm.
  rewrite (_parse_event_documented d m raw Hs Em Hraw), Hj, Hd.
  cbn [bind try_except]. rewrite He. reflexivity.
Qed.

(** Every entry of the normalized header map is an entry of the event's
    header map with its key lowercased and its value as it was. *)
Theorem header_keys_lowercased (kvs : list (string * json)) (k : string)
    (v : json) :
  In (k, v) (lower_keys kvs) ->
  exists k0, In (k0, v) kvs /\ k = str_lower k0.
Proof.
  unfold lower_keys.
  assert (G : forall acc,
    In (k, v) (fold_left
                 (fun acc kv => dict_set acc (str_lower (fst kv)) (snd kv))
                 kvs acc) ->
    In (k, v) acc \/ exists k0, In (k0, v) kvs /\ k = str_lower k0).
  { induction kvs as [|[k1 v1] kvs IH]; intros acc H; simpl in H.
    - left; exact H.
    - destruct (IH _ H) as [Hacc|[k0 [Hin Hk]]].
      + apply dict_set_In in Hacc as [[Hk Hv]|Hacc].
        * right. exists k1. simpl in Hk, Hv. subst. split; [left|]; reflexivity.
        * left; exact Hacc.
      + right. exists k0. split; [right; exact Hin | exact Hk]. }
  intros H. destruct (G [] H) as [[]|Hex]. exact Hex.
Qed.

(** What a request the normalizer returned holds: the event was a mapping,
    and the path, the query and the headers are the resolved ones. *)
Lemma _parse_event_inv (event : json) (r : request) :
  _parse_event event = Ok r ->
  exists d,
    event = JDict d
    /\ req_path r = resolved_path d
    /\ req_query r = resolved_query d
    /\ req_headers r = lower_keys (header_map d)
    /\ event_body_bytes event = Ok (req_body_bytes r)
    /\ event_body_json (req_headers r) (req_body_bytes r)
       = Ok (req_body_json r).
Proof.
  destruct event as [| | | | | |d]; try discriminate.
  unfold _parse_event.
  rewrite event_path_returns.
  destruct (event_method (JDict d)) as [x|e]; [|discriminate].
  cbn [bind]. unfold get at 1 2. cbn [bind].
  pose proof (event_query_returns d) as Hq.
  unfold fmap, get in Hq. cbn [bind] in Hq.
  destruct (or_else (dict_get d "queryStringParameters" JNull)
              (Ok (JDict []))) as [q|e]; cbn [bind] in Hq; [|discriminate Hq].
  injection Hq as Hq.
  assert (Hh : forall kvs,
    (hs <- or_else (dict_get d "headers" JNull) (Ok (JDict [])) ;; items hs)
      = Ok kvs -> kvs = header_map d).
  { unfold header_map, or_else.
    destruct (dict_get d "headers" JNull) as [| | | | | |hs]; intros kvs;
      try (destruct (truthy _); cbn [bind items]; intros H;
           solve [discriminate H | injection H as <-; reflexivity]).
    destruct hs; cbn; intros H; injection H as <-; reflexivity. }
  destruct (or_else (dict_get d "headers" JNull) (Ok (JDict [])))
    as [hs|e]; cbn [bind] in Hh |- *; [|discriminate].
  destruct (items hs) as [kvs|e]; cbn [bind]; [|discriminate].
  specialize (Hh kvs eq_refl). subst kvs.
  destruct (event_body_bytes (JDict d)) as [bb|e]; cbn [bind];
    [|discriminate].
  destruct (event_body_json (lower_keys (header_map d)) bb) as [bj|e] eqn:Ej;
    cbn [bind]; [|discriminate].
  destruct (upper x) as [m|e]; cbn [bind]; [|discriminate].
  intros H; injection H as <-. exists d. cbn. repeat split; assumption.
Qed.

(** The body is read as JSON only when the content type names
    [application/json] and the body is not empty: a request with a parsed
    body had both. *)
Theorem body_json_only_when_expected (event : json) (r : request) :
  _parse_event event = Ok r ->
  req_body_json r <> JNull ->
  contains "application/json"
    (dict_get (req_headers r) "content-type" (JStr "")) = Ok true
  /\ object_truthy (req_body_bytes r) = true.
Proof.
  intros Hp Hn.
  destruct (_parse_event_inv _ _ Hp) as [d [_ [_ [_ [_ [_ Hj]]]]]].
  unfold event_body_json in Hj.
  destruct (contains "application/json" _) as [[|]|e];
    cbn [bind andb] in Hj; try discriminate Hj.
  - destruct (object_truthy (req_body_bytes r)).
    + split; reflexivity.
    + injection Hj as Hj. exfalso; apply Hn; symmetry; exact Hj.
  - injection Hj as Hj. exfalso; apply Hn; symmetry; exact Hj.
Qed.

(** A [JSONDecodeError] of [json.loads] is swallowed: whatever the content
    type says, the reading returns, and the parsed body is absent. *)
Theorem json_decode_error_swallowed (hs : dict) (raw : bytes) (s : string)
    (e : exn) (is_json : bool) :
  bytes_decode raw = Ok s ->
  json_loads s = Raise e ->
  exn_class e = JSONDecodeError ->
  contains "application/json" (dict_get hs "content-type" (JStr ""))
    = Ok is_json ->
  event_body_json hs (OBytes raw) = Ok JNull.
Proof.
  intros Hd Hl Hc Hin. unfold event_body_json. rewrite Hin. cbn [bind].
  destruct (is_json && object_truthy (OBytes raw)); [|reflexivity].
  cbn [decode]. rewrite Hd. cbn [bind]. rewrite Hl. cbn [try_except].
  replace (isinstance e JSONDecodeError) with true
    by (symmetry; apply isinstance_JSONDecodeError, Hc).
  reflexivity.
Qed.

(** The path and the query of the request: the raw path, else the path,
    else ["/"]; the query, else the empty mapping. *)
Theorem path_and_query_resolution (d : dict) (r : request) :
  _parse_event (JDict d) = Ok r ->
  req_path r = resolved_path d /\ req_query r = resolved_query d.
Proof.
  intros Hp.
  destruct (_parse_event_inv _ _ Hp) as [d' [Hd [Hpath [Hq _]]]].
  injection Hd as <-. split; assumption.
Qed.

End Normalizer.

(** *** The handler on concrete events *)


(** C4, where the code leaves the claim: the body bytes [0x80] are not
    UTF-8, so the body does not decode as JSON; the exception of the
    decoding is not the one the handler catches, the normalizer raises it,
    and the entry point answers 500. *)
Theorem invalid_utf8_json_body_raises :
  @documented_shape RefPy.lib event_bad_utf8 = true
  /\ @body_decoding RefPy.lib event_bad_utf8 = Ok [x80]
  /\ @json_expected RefPy.lib event_bad_utf8 [x80] = true
  /\ @_parse_event RefPy.lib (JDict event_bad_utf8) =
     Raise (mkExn UnicodeDecodeError
       "'utf-8' codec can't decode byte 0x80 in position 0: invalid start byte")
  /\ fmap statusCode
       (@lambda_handler RefPy.lib noon (JDict event_bad_utf8) JNull)
     = Ok 500%Z.
Proof. repeat split; reflexivity. Qed.

(** [GET /items/42] *)
Lemma route_items_witness :
  In "GET" ["GET"; "PUT"; "DELETE"]
  /\ @route RefPy.lib noon "GET" (JStr "/items/42") JNull JNull =
     Ok {| statusCode := 200; headers := CORS_HEADERS;
           body := RefPy.dumps (JDict [("id", JStr "42");
                                       ("name", JStr "Item 42")]);
           isBase64Encoded := false |}.
Proof.
  split; [left; reflexivity|].
  exact (@route_items RefPy.lib noon "GET" "42" JNull JNull
           (or_introl eq_refl)).
Defined.

(** A handler that sets its own allowed origin. *)
Lemma cors_headers_merge_witness :
  NoDup (map fst [("Access-Control-Allow-Origin", JStr "https://example.org");
                  ("Cache-Control", JStr "no-store")])
  /\ dict_lookup
       (headers (@_response RefPy.lib 200 JNull
          (Some [("Access-Control-Allow-Origin", JStr "https://example.org");
                 ("Cache-Control", JStr "no-store")]) false))
       "Access-Control-Allow-Origin" = Some (JStr "https://example.org").
Proof.
  assert (Hnd : NoDup (map fst
            [("Access-Control-Allow-Origin", JStr "https://example.org");
             ("Cache-Control", JStr "no-store")])).
  { repeat constructor; simpl; intuition discriminate. }
  split; [exact Hnd|].
  exact (proj1 (@cors_headers_merge RefPy.lib 200 JNull _ false Hnd)
           "Access-Control-Allow-Origin").
Defined.

(** [GET /health] at noon. *)
Lemma route_health_witness :
  valid_datetime noon = true
  /\ @route RefPy.lib noon "GET" (JStr "/health") JNull JNull =
     Ok {| statusCode := 200; headers := CORS_HEADERS;
           body := RefPy.dumps
                     (JDict [("ok", JBool true);
                             ("time",
                              JStr "2024-05-17T12:00:00.250000+00:00")]);
           isBase64Encoded := false |}
  /\ iso8601_utc "2024-05-17T12:00:00.250000+00:00" = true.
Proof.
  split; [reflexivity|].
  exact (@route_health RefPy.lib noon JNull JNull eq_refl).
Defined.

(** [GET /unknown] *)
Lemma route_not_found_witness :
  @route RefPy.lib noon "GET" (JStr "/unknown") JNull JNull =
    Ok {| statusCode := 404; headers := CORS_HEADERS;
          body := RefPy.dumps (JDict [("error", JStr "Not found");
                                      ("method", JStr "GET");
                                      ("path", JStr "/unknown")]);
          isBase64Encoded := false |}.
Proof.
  apply (@route_not_found RefPy.lib noon "GET" "/unknown" JNull JNull).
  - intros [_ [H|H]]; discriminate H.
  - intros [H _]; discriminate H.
  - intros [H _]; discriminate H.
  - discriminate.
Defined.

(** [POST /echo] with a JSON body: the body is parsed. *)
Lemma body_json_only_when_expected_witness :
  exists r,
    @_parse_event RefPy.lib (JDict event_echo) = Ok r
    /\ req_method r = "POST"
    /\ req_body_json r = JDict [("a", JInt 1)]
    /\ @contains "application/json"
         (dict_get (req_headers r) "content-type" (JStr "")) = Ok true
    /\ object_truthy (req_body_bytes r) = true.
Proof.
  eexists. split; [vm_compute; reflexivity|].
  split; [reflexivity|]. split; [reflexivity|].
  apply (@body_json_only_when_expected RefPy.lib (JDict event_echo));
    [vm_compute; reflexivity | discriminate].
Defined.

(** A body that is not JSON, sent as JSON. *)
Lemma json_decode_error_swallowed_witness :
  @event_body_json RefPy.lib [("content-type", JStr "application/json")]
    (OBytes (list_byte_of_string "{not json")) = Ok JNull.
Proof.
  exact (@json_decode_error_swallowed RefPy.lib
           [("content-type", JStr "application/json")]
           (list_byte_of_string "{not json") "{not json"
           (mkExn JSONDecodeError
              "Expecting property name enclosed in double quotes")
           true eq_refl eq_refl eq_refl eq_refl).
Defined.

(** [GET /unknown?x=1] *)
Lemma path_and_query_resolution_witness :
  exists r,
    @_parse_event RefPy.lib (JDict event_unknown) = Ok r
    /\ req_path r = JStr "/unknown"
    /\ req_query r = JDict [("x", JStr "1")].
Proof.
  eexists. split; [vm_compute; reflexivity|].
  exact (@path_and_query_resolution RefPy.lib event_unknown _ eq_refl).
Defined.

(** An OPTIONS request whose path is a number. *)
Lemma route_path_not_str_witness :
  @route RefPy.lib noon "OPTIONS" (JInt 5) JNull JNull =
    Raise (mkExn AttributeError "'int' object has no attribute 'startswith'").
Proof.
  exact (@route_path_not_str RefPy.lib noon "OPTIONS" (JInt 5) JNull JNull
           eq_refl).
Defined.

(** The headers of [POST /echo]. *)
Lemma header_keys_lowercased_witness :
  In ("content-type", JStr "application/json")
     (@lower_keys RefPy.lib (header_map event_echo))
  /\ exists k0,
       In (k0, JStr "application/json") (header_map event_echo)
       /\ "content-type" = RefPy.lower k0.
Proof.
  assert (H : In ("content-type", JStr "application/json")
                (@lower_keys RefPy.lib (header_map event_echo)))
    by (left; reflexivity).
  split; [exact H|].
  exact (@header_keys_lowercased RefPy.lib (header_map event_echo)
           "content-type" (JStr "application/json") H).
Defined.

(** *** The router as a whole *)

Section RouterTable.

Context {L : PyLib}.

(** On a str path nothing in the router can raise: the index [[1]] after
    the split is only taken under [startswith], where the split has two
    parts.  The router is then the plain decision below. *)
Lemma route_on_str (now : datetime) (method path : string)
    (query body_json : json) :
  route now method (JStr path) query body_json =
  Ok (if (method =? "GET") && (path =? "/health") then
        _response 200
          (JDict [("ok", JBool true); ("time", JStr (isoformat now))])
          None false
      else if (method =? "GET") && (path =? "/") then
        _response 200
          (JDict [("message", JStr "Hello from Lambda webserver 👋");
                  ("paths", JList [JStr "/"; JStr "/health"; JStr "/echo";
                                   JStr "/items/{id}"])])
          None false
      else if (method =? "POST") && (path =? "/echo") then
        _response 200
          (JDict [("received", body_json);
                  ("note", JStr "POST JSON to /echo and I’ll send it back.")])
          None false
      else if prefix "/items/" path
              && existsb (String.eqb method) ["GET"; "PUT"; "DELETE"] then
        let item_id := str_drop 7 path in
        if item_id =? "" then
          _response 400 (JDict [("error", JStr "Missing item id")]) None false
        else if method =? "GET" then
          _response 200
            (JDict [("id", JStr item_id); ("name", JStr ("Item " ++ item_id))])
            None false
        else if method =? "PUT" then
          _response 200
            (JDict [("updated", JStr item_id); ("body", body_json)])
            None false
        else if method =? "DELETE" then _response 204 (JStr "") None false
        else route_rest method (JStr path)
      else route_rest method (JStr path)).
Proof.
  unfold route; cbn [eq_str].
  destruct ((method =? "GET") && (path =? "/health")); [reflexivity|].
  destruct ((method =? "GET") && (path =? "/")); [reflexivity|].
  destruct ((method =? "POST") && (path =? "/echo")); [reflexivity|].
  cbn [startswith bind].
  destruct (prefix "/items/" path) eqn:Ep; cbn [andb]; [|reflexivity].
  destruct (existsb (String.eqb method) ["GET"; "PUT"; "DELETE"]);
    [|reflexivity].
  destruct (prefix_split _ _ Ep) as [rest ->].
  cbn [split1 bind]. rewrite str_split1_prefix. cbn [bind].
  change 7%nat with (String.length "/items/"). rewrite str_drop_append.
  cbv zeta.
  destruct (rest =? ""); [reflexivity|].
  destruct (method =? "GET"); [reflexivity|].
  destruct (method =? "PUT"); [reflexivity|].
  destruct (method =? "DELETE"); reflexivity.
Qed.

(** The status of whatever the router answers is one of 200, 204, 400 and
    404, and a 204 has an empty body. *)
Lemma route_status (now : datetime) (method : string)
    (path query body_json : json) (r : response) :
  route now method path query body_json = Ok r ->
  In (statusCode r) [200; 204; 400; 404]%Z
  /\ (statusCode r = 204%Z -> body r = "").
Proof.
  unfold route, route_rest. intros H.
  repeat match type of H with
         | (if ?c then _ else _) = _ => destruct c
         | bind ?c _ = _ => destruct c; cbn [bind] in H
         | Ok _ = Ok _ => injection H as <-
         | Raise _ = Ok _ => discriminate H
         end;
    try match goal with
        | |- context [if ?c then _ else _] => destruct c
        end;
    cbn;
    (split;
     [repeat first [left; reflexivity | right]
     | intros E; first [reflexivity | discriminate E]]).
Qed.

End RouterTable.

Ltac to_props :=
  repeat match goal with
         | H : _ && _ = true |- _ => apply andb_true_iff in H; destruct H
         | H : _ && _ = false |- _ => apply andb_false_iff in H
         | H : String.eqb _ _ = true |- _ => apply String.eqb_eq in H
         | H : String.eqb _ _ = false |- _ => apply String.eqb_neq in H
         end.

Ltac settle :=
  cbn [_response statusCode]; to_props; simpl In;
  intuition idtac; to_props; subst; cbn in *;
  try congruence; intuition congruence.

Section RouterMeaning.

Context {L : PyLib}.

(** The router returns exactly when the path is a str: on a str path no
    step raises (the index after the split is never out of range), and
    any other path stops it at [startswith]. *)
Theorem route_returns_iff_str_path (now : datetime) (method : string)
    (path query body_json : json) :
  (exists r, route now method path query body_json = Ok r)
  <-> is_str path = true.
Proof.
  split.
  - intros [r Hr]. destruct path; try reflexivity;
      unfold route in Hr; cbn [eq_str] in Hr;
      rewrite !andb_false_r in Hr; discriminate Hr.
  - destruct path; try discriminate. intros _.
    rewrite route_on_str. eexists; reflexivity.
Qed.

(** [method in {"GET", "PUT", "DELETE"}] *)
Lemma in_methods (method : string) :
  existsb (String.eqb method) ["GET"; "PUT"; "DELETE"] = true
  <-> In method ["GET"; "PUT"; "DELETE"].
Proof. cbn. rewrite !orb_true_iff, !String.eqb_eq. intuition congruence. Qed.

(** What the status of a routed response says about the request: 400 is
    the bare [/items/] path under GET, PUT or DELETE; 204 is OPTIONS, or
    DELETE of an item; 404 is a request no rule takes. *)
Theorem route_status_meaning (now : datetime) (method path : string)
    (query body_json : json) (r : response) :
  route now method (JStr path) query body_json = Ok r ->
  (statusCode r = 400%Z <->
     path = "/items/" /\ In method ["GET"; "PUT"; "DELETE"])
  /\ (statusCode r = 204%Z <->
        method = "OPTIONS"
        \/ (method = "DELETE" /\ prefix "/items/" path = true
            /\ path <> "/items/"))
  /\ (statusCode r = 404%Z <->
        method <> "OPTIONS"
        /\ ~ (method = "GET" /\ (path = "/health" \/ path = "/"))
        /\ ~ (method = "POST" /\ path = "/echo")
        /\ ~ (prefix "/items/" path = true
              /\ In method ["GET"; "PUT"; "DELETE"])).
Proof.
  rewrite route_on_str.
  match goal with
  | |- Ok ?x = Ok r -> _ =>
      intros H; assert (Hx : x = r) by congruence; clear H; subst r
  end.
  unfold route_rest.
  destruct ((method =? "GET") && (path =? "/health")) eqn:E1; [settle|].
  destruct ((method =? "GET") && (path =? "/")) eqn:E2; [settle|].
  destruct ((method =? "POST") && (path =? "/echo")) eqn:E3; [settle|].
  destruct (existsb (String.eqb method) ["GET"; "PUT"; "DELETE"]) eqn:Ee;
    rewrite ?andb_true_r, ?andb_false_r.
  2: { assert (Hn : ~ In method ["GET"; "PUT"; "DELETE"])
         by (intros Hi; apply (proj2 (in_methods method)) in Hi;
             rewrite Hi in Ee; discriminate Ee).
       clear Ee. destruct (method =? "OPTIONS") eqn:Eo; settle. }
  apply in_methods in Ee.
  destruct (prefix "/items/" path) eqn:Ep.
  2: { destruct (method =? "OPTIONS") eqn:Eo; settle. }
  destruct (prefix_split _ _ Ep) as [rest ->].
  change 7%nat with (String.length "/items/"). rewrite str_drop_append.
  cbv zeta. clear Ep.
  assert (Hp : prefix "/items/" ("/items/" ++ rest) = true)
    by apply prefix_append.
  assert (Hr : "/items/" ++ rest = "/items/" <-> rest = "").
  { split; [intros E; cbn in E; congruence | intros ->; reflexivity]. }
  generalize dependent ("/items/" ++ rest). intros path E1 E2 E3 Hp Hr.
  destruct (rest =? "") eqn:Er; [settle|].
  destruct (method =? "GET") eqn:Eg; [settle|].
  destruct (method =? "PUT") eqn:Epu; [settle|].
  destruct (method =? "DELETE") eqn:Ed; [settle|].
  destruct (method =? "OPTIONS") eqn:Eo; settle.
Qed.

(** The status codes of the entry point: one of 200, 204, 400, 404 and
    500; it is 500 exactly when the normalizer or the router raised, and a
    204 has an empty body. *)
Theorem lambda_handler_status_codes (now : datetime) (event context : json) :
  exists r,
    lambda_handler now event context = Ok r
    /\ In (statusCode r) [200; 204; 400; 404; 500]%Z
    /\ (statusCode r = 500%Z <->
          exists e,
            (rq <- _parse_event event ;;
             route now (req_method rq) (req_path rq) (req_query rq)
               (req_body_json rq)) = Raise e)
    /\ (statusCode r = 204%Z -> body r = "").
Proof.
  eexists. split; [apply lambda_handler_answer|].
  destruct (bind (_parse_event event) _) as [resp|e] eqn:E.
  - destruct (_parse_event event) as [rq|e']; [|discriminate E].
    cbn [bind] in E. destruct (route_status _ _ _ _ _ _ E) as [Hin H204].
    split; [simpl in Hin |- *; tauto|]. split; [|exact H204].
    split.
    + intros H5. rewrite H5 in Hin. simpl in Hin.
      exfalso. intuition discriminate.
    + intros [e He]. discriminate He.
  - split; [simpl; tauto|]. split; [|discriminate].
    split; [intros _; exists e; reflexivity | reflexivity].
Qed.

End RouterMeaning.

(** *** The header maps *)

Lemma dict_set_keys (d : dict) (k : string) (v : json) :
  exists extra, map fst (dict_set d k v) = (map fst d ++ extra)%list
                /\ (forall x, In x extra -> x = k).
Proof.
  induction d as [|[k0 v0] d [extra [IH Hx]]]; simpl.
  - exists [k]. split; [reflexivity|]. intros x [<-|[]]; reflexivity.
  - destruct (k0 =? k); simpl.
    + exists []. split; [rewrite app_nil_r; reflexivity | intros x []].
    + exists extra. rewrite IH. split; [reflexivity | exact Hx].
Qed.

Lemma dict_set_In_key (d : dict) (k x : string) (v : json) :
  In x (map fst (dict_set d k v)) -> x = k \/ In x (map fst d).
Proof.
  induction d as [|[k0 v0] d IH]; simpl.
  - intros [<-|[]]; left; reflexivity.
  - destruct (k0 =? k); simpl.
    + intros H; right; exact H.
    + intros [H|H]; [right; left; exact H|].
      destruct (IH H) as [Hk|Hin]; [left; exact Hk | right; right; exact Hin].
Qed.

(** Setting a key keeps the keys of a dict distinct. *)
Lemma dict_set_NoDup (d : dict) (k : string) (v : json) :
  NoDup (map fst d) -> NoDup (map fst (dict_set d k v)).
Proof.
  induction d as [|[k0 v0] d IH]; simpl; intros Hnd.
  - constructor; [intros [] | constructor].
  - inversion Hnd as [|? ? Hnotin Hnd']; subst.
    destruct (k0 =? k) eqn:E; simpl.
    + constructor; assumption.
    + constructor; [|apply IH; exact Hnd'].
      intros Hin. apply dict_set_In_key in Hin as [Hk|Hin].
      * subst k0. rewrite String.eqb_refl in E. discriminate E.
      * contradiction.
Qed.

Lemma fold_dict_set_keys (f : string -> string) (kvs : list (string * json))
    (acc : dict) :
  NoDup (map fst acc) ->
  let d := fold_left (fun acc kv => dict_set acc (f (fst kv)) (snd kv))
             kvs acc in
  NoDup (map fst d)
  /\ exists extra, map fst d = (map fst acc ++ extra)%list.
Proof.
  revert acc. induction kvs as [|[k v] kvs IH]; intros acc Hnd; cbn zeta.
  - split; [exact Hnd|]. exists []. rewrite app_nil_r. reflexivity.
  - simpl. destruct (IH _ (dict_set_NoDup acc (f k) v Hnd)) as [H1 [ex H2]].
    split; [exact H1|].
    destruct (dict_set_keys acc (f k) v) as [ex0 [H3 _]].
    exists (ex0 ++ ex)%list. rewrite H2, H3, app_assoc. reflexivity.
Qed.

Lemma find_app_last {A : Type} (p : A -> bool) (l : list A) (x : A) :
  find p (l ++ [x]) =
  match find p l with
  | Some y => Some y
  | None => if p x then Some x else None
  end.
Proof.
  induction l as [|a l IH]; simpl; [reflexivity|].
  destruct (p a); [reflexivity | exact IH].
Qed.

Section HeaderMaps.

Context {L : PyLib}.

(** The normalized header map is a dict (its keys are distinct), and the
    value under a lowercased name is that of the last header of the event
    whose name lowercases to it: of two headers that differ in case only,
    the later one wins. *)
Theorem lower_keys_last_wins (kvs : list (string * json)) (k : string) :
  NoDup (map fst (lower_keys kvs))
  /\ dict_lookup (lower_keys kvs) k =
     option_map snd (find (fun kv => str_lower (fst kv) =? k) (rev kvs)).
Proof.
  split.
  { apply (fold_dict_set_keys str_lower kvs []). constructor. }
  unfold lower_keys.
  assert (G : forall acc,
    dict_lookup
      (fold_left (fun acc kv => dict_set acc (str_lower (fst kv)) (snd kv))
         kvs acc) k =
    match find (fun kv => str_lower (fst kv) =? k) (rev kvs) with
    | Some kv => Some (snd kv)
    | None => dict_lookup acc k
    end).
  { induction kvs as [|[k1 v1] kvs IH]; intros acc; simpl.
    - reflexivity.
    - rewrite IH, find_app_last, dict_lookup_set. cbn [fst snd].
      destruct (find _ (rev kvs)); [reflexivity|].
      destruct (str_lower k1 =? k); reflexivity. }
  rewrite G. destruct (find _ (rev kvs)); reflexivity.
Qed.

(** The header map of a response is a dict that starts with the three
    fixed headers in their order, whatever the handler supplied: a handler
    header can change a fixed header's value, never its place, and a new
    header goes after them. *)
Theorem response_header_keys (status : Z) (b : json) (over : option dict)
    (is_base64 : bool) :
  NoDup (map fst (headers (_response status b over is_base64)))
  /\ exists extra,
       map fst (headers (_response status b over is_base64)) =
       (["Access-Control-Allow-Origin"; "Access-Control-Allow-Methods";
         "Access-Control-Allow-Headers"] ++ extra)%list.
Proof.
  cbn [_response headers]. unfold dict_merge.
  apply (fold_dict_set_keys (fun k => k)
           (match over with Some h => h | None => [] end) CORS_HEADERS).
  repeat constructor; simpl; intuition discriminate.
Qed.

End HeaderMaps.

(** *** From the event to the response *)

Section EndToEnd.

Context {L : PyLib}.

(** The entry point on an event of the documented shapes, given what the
    JSON reading of the body returns. *)
Lemma lambda_handler_documented (now : datetime) (d : dict) (context : json)
    (m : string) (raw : bytes) (parsed : json) :
  documented_shape d = true ->
  resolved_method (JDict d) = JStr m ->
  body_decoding d = Ok raw ->
  (if json_expected d raw then
     try_except (s <- bytes_decode raw ;; json_loads s)
       JSONDecodeError (fun _ => Ok JNull)
   else Ok JNull) = Ok parsed ->
  lambda_handler now (JDict d) context =
  Ok match route now (str_upper m) (resolved_path d) (resolved_query d)
             parsed with
     | Ok r => r
     | Raise e => internal_server_error e
     end.
Proof.
  intros Hs Hm Hraw Hj.
  rewrite lambda_handler_answer, (_parse_event_documented d m raw Hs Hm Hraw).
  rewrite Hj. reflexivity.
Qed.

(** The entry point is the router applied to the normalized event: the
    uppercased method, the resolved path, and as parsed body the JSON value
    of the body when one is expected and [json.loads] returns it, else
    [None] (no JSON expected, or a [JSONDecodeError]). *)
Theorem lambda_handler_routes (now : datetime) (d : dict) (context : json)
    (m : string) (raw : bytes) :
  documented_shape d = true ->
  resolved_method (JDict d) = JStr m ->
  body_decoding d = Ok raw ->
  let answer parsed :=
    Ok match route now (str_upper m) (resolved_path d) (resolved_query d)
               parsed with
       | Ok r => r
       | Raise e => internal_server_error e
       end in
  (json_expected d raw = false ->
     lambda_handler now (JDict d) context = answer JNull)
  /\ (forall s v,
        json_expected d raw = true -> bytes_decode raw = Ok s ->
        json_loads s = Ok v ->
        lambda_handler now (JDict d) context = answer v)
  /\ (forall s e,
        json_expected d raw = true -> bytes_decode raw = Ok s ->
        json_loads s = Raise e -> exn_class e = JSONDecodeError ->
        lambda_handler now (JDict d) context = answer JNull).
Proof.
  intros Hs Hm Hraw answer. subst answer. cbv beta.
  split; [|split].
  - intros Hj. apply (lambda_handler_documented now d context m raw);
      try assumption. rewrite Hj. reflexivity.
  - intros s v Hj Hd Hl.
    apply (lambda_handler_documented now d context m raw); try assumption.
    rewrite Hj, Hd. cbn [bind]. rewrite Hl. reflexivity.
  - intros s e Hj Hd Hl Hc.
    apply (lambda_handler_documented now d context m raw); try assumption.
    rewrite Hj, Hd. cbn [bind]. rewrite Hl. cbn [try_except].
    replace (isinstance e JSONDecodeError) with true
      by (symmetry; apply isinstance_JSONDecodeError, Hc).
    reflexivity.
Qed.

(** POST /echo through the whole handler: a JSON body comes back under
    [received], in a 200 with the fixed headers. *)
Theorem echo_end_to_end (now : datetime) (d : dict) (context : json)
    (m : string) (raw : bytes) (s : string) (v : json) :
  documented_shape d = true ->
  resolved_method (JDict d) = JStr m ->
  str_upper m = "POST" ->
  resolved_path d = JStr "/echo" ->
  body_decoding d = Ok raw ->
  json_expected d raw = true ->
  bytes_decode raw = Ok s ->
  json_loads s = Ok v ->
  lambda_handler now (JDict d) context =
    Ok {| statusCode := 200; headers := CORS_HEADERS;
          body := json_dumps
                    (JDict [("received", v);
                            ("note",
                             JStr "POST JSON to /echo and I’ll send it back.")]);
          isBase64Encoded := false |}.
Proof.
  intros Hs Hm Hu Hp Hraw Hj Hd Hl.
  rewrite (lambda_handler_documented now d context m raw v Hs Hm Hraw).
  - rewrite Hu, Hp. reflexivity.
  - rewrite Hj, Hd. cbn [bind]. rewrite Hl. reflexivity.
Qed.

(** An event that is not a mapping stops the normalizer at its first
    [.get]; the entry point answers 500 with the [AttributeError] as
    detail. *)
Theorem event_not_mapping (now : datetime) (event context : json) :
  is_dict event = false ->
  _parse_event event = Raise (attribute_error (type_name event) "get")
  /\ lambda_handler now event context =
     Ok (internal_server_error (attribute_error (type_name event) "get")).
Proof.
  intros Hd.
  assert (Hp : _parse_event event =
               Raise (attribute_error (type_name event) "get"))
    by (destruct event; try discriminate Hd; reflexivity).
  split; [exact Hp|].
  rewrite lambda_handler_answer, Hp. reflexivity.
Qed.

(** A [headers] field that holds something other than a mapping stops the
    normalizer at [.items()], before the body is looked at. *)
Theorem headers_not_mapping (d : dict) :
  shape_a_ok d = true ->
  truthy (dict_get d "headers" JNull) = true ->
  is_dict (dict_get d "headers" JNull) = false ->
  _parse_event (JDict d) =
    Raise (attribute_error (type_name (dict_get d "headers" JNull)) "items").
Proof.
  intros Hs Ht Hd. unfold _parse_event.
  rewrite (event_method_returns d Hs), event_path_returns. cbn [bind].
  unfold get at 1. cbn [bind]. unfold or_else at 1. rewrite Ht. cbn [bind].
  destruct (dict_get d "headers" JNull); try discriminate Hd; reflexivity.
Qed.

(** With no body (the field is missing, null or empty) nothing is decoded
    and nothing is parsed, whatever the base64 flag and the content type
    say: the body bytes are empty and the parsed body is absent. *)
Theorem empty_body_never_parsed (d : dict) (r : request) :
  truthy (dict_get d "body" JNull) = false ->
  str_encode "" = Ok [] ->
  _parse_event (JDict d) = Ok r ->
  req_body_bytes r = OBytes [] /\ req_body_json r = JNull.
Proof.
  intros Hb He Hp.
  destruct (_parse_event_inv _ _ Hp) as [d' [_ [_ [_ [_ [Hbb Hbj]]]]]].
  assert (Hbytes : req_body_bytes r = OBytes []).
  { unfold event_body_bytes, get, or_else in Hbb. cbn [bind] in Hbb.
    rewrite Hb in Hbb. cbn [bind truthy String.eqb negb] in Hbb.
    rewrite andb_false_r, He in Hbb. cbn in Hbb.
    injection Hbb as <-. reflexivity. }
  split; [exact Hbytes|].
  rewrite Hbytes in Hbj. unfold event_body_json in Hbj.
  destruct (contains "application/json" _) as [c|e]; cbn [bind] in Hbj;
    [|discriminate Hbj].
  cbn [object_truthy] in Hbj. rewrite andb_false_r in Hbj.
  injection Hbj as <-. reflexivity.
Qed.

End EndToEnd.

Section BodyUse.

Context {L : PyLib}.

(** The parsed body reaches the response on POST and PUT only: for any
    other method the router's result is the same whatever the body was. *)
Theorem route_body_only_post_put (now : datetime) (method : string)
    (path query body1 body2 : json) :
  method <> "POST" ->
  method <> "PUT" ->
  route now method path query body1 = route now method path query body2.
Proof.
  intros Hpost Hput. unfold route.
  apply String.eqb_neq in Hpost, Hput. rewrite Hpost, Hput.
  reflexivity.
Qed.

End BodyUse.

(** *** The further properties on concrete events *)

(** [GET /items/] *)
Lemma route_status_meaning_witness :
  @route RefPy.lib noon "GET" (JStr "/items/") JNull JNull =
    Ok {| statusCode := 400; headers := CORS_HEADERS;
          body := RefPy.dumps (JDict [("error", JStr "Missing item id")]);
          isBase64Encoded := false |}
  /\ "/items/" = "/items/" /\ In "GET" ["GET"; "PUT"; "DELETE"].
Proof.
  split; [reflexivity|].
  exact (proj1 (proj1 (@route_status_meaning RefPy.lib noon "GET" "/items/"
                         JNull JNull _ eq_refl)) eq_refl).
Defined.

(** [GET /unknown?x=1] through the whole handler. *)
Lemma lambda_handler_routes_witness :
  @lambda_handler RefPy.lib noon (JDict event_unknown) JNull =
    Ok {| statusCode := 404; headers := CORS_HEADERS;
          body := RefPy.dumps (JDict [("error", JStr "Not found");
                                      ("method", JStr "GET");
                                      ("path", JStr "/unknown")]);
          isBase64Encoded := false |}.
Proof.
  exact (proj1 (@lambda_handler_routes RefPy.lib noon event_unknown JNull
                  "GET" [] eq_refl eq_refl eq_refl) eq_refl).
Defined.

(** [POST /echo] with the JSON body [{"a": 1}] through the whole handler. *)
Lemma echo_end_to_end_witness :
  @lambda_handler RefPy.lib noon (JDict event_echo) JNull =
    Ok {| statusCode := 200; headers := CORS_HEADERS;
          body := RefPy.dumps
                    (JDict [("received", JDict [("a", JInt 1)]);
                            ("note",
                             JStr "POST JSON to /echo and I’ll send it back.")]);
          isBase64Encoded := false |}.
Proof.
  apply (@echo_end_to_end RefPy.lib noon event_echo JNull "post"
           (list_byte_of_string (RefPy.dumps (JDict [("a", JInt 1)])))
           (RefPy.dumps (JDict [("a", JInt 1)]))
           (JDict [("a", JInt 1)]));
    vm_compute; reflexivity.
Defined.

(** An event that is a list. *)
Lemma event_not_mapping_witness :
  @lambda_handler RefPy.lib noon (JList []) JNull =
    Ok (@internal_server_error RefPy.lib
          (mkExn AttributeError "'list' object has no attribute 'get'")).
Proof.
  exact (proj2 (@event_not_mapping RefPy.lib noon (JList []) JNull eq_refl)).
Defined.

(** An event whose [headers] is a str. *)
Lemma headers_not_mapping_witness :
  @_parse_event RefPy.lib (JDict [("headers", JStr "x")]) =
    Raise (mkExn AttributeError "'str' object has no attribute 'items'").
Proof.
  exact (@headers_not_mapping RefPy.lib [("headers", JStr "x")]
           eq_refl eq_refl eq_refl).
Defined.

(** A JSON request flagged base64 that has no body. *)
Lemma empty_body_never_parsed_witness :
  exists r,
    @_parse_event RefPy.lib
      (JDict [("isBase64Encoded", JBool true);
              ("headers",
               JDict [("content-type", JStr "application/json")])]) = Ok r
    /\ req_body_bytes r = OBytes []
    /\ req_body_json r = JNull.
Proof.
  eexists. split; [vm_compute; reflexivity|].
  exact (@empty_body_never_parsed RefPy.lib
           [("isBase64Encoded", JBool true);
            ("headers", JDict [("content-type", JStr "application/json")])]
           _ eq_refl eq_refl eq_refl).
Defined.

(** [GET /items/1] with and without a body. *)
Lemma route_body_only_post_put_witness :
  @route RefPy.lib noon "GET" (JStr "/items/1") JNull JNull =
  @route RefPy.lib noon "GET" (JStr "/items/1") JNull (JInt 1).
Proof.
  apply (@route_body_only_post_put RefPy.lib noon "GET"); discriminate.
Defined.

(** *** A body that is not a string *)

Section OddBody.

Context {L : PyLib}.

(** The normalizer up to the body, on an event whose method and headers
    have the documented shapes. *)
Lemma _parse_event_upto_body (d : dict) (m : string) :
  shape_a_ok d = true ->
  resolved_method (JDict d) = JStr m ->
  nothing_or is_dict (dict_get d "headers" JNull) = true ->
  _parse_event (JDict d) =
  (body_bytes <- event_body_bytes (JDict d) ;;
   body_json <- event_body_json (lower_keys (header_map d)) body_bytes ;;
   Ok {| req_method := str_upper m;
         req_path := resolved_path d;
         req_headers := lower_keys (header_map d);
         req_query := resolved_query d;
         req_body_bytes := body_bytes;
         req_body_json := body_json |}).
Proof.
  intros Hs Hm Hhd. unfold _parse_event.
  rewrite (event_method_returns d Hs), Hm, event_path_returns. cbn [bind].
  pose proof (event_headers_returns d Hhd) as Hh.
  unfold get in Hh. cbn [bind] in Hh.
  unfold get at 1. cbn [bind].
  destruct (or_else (dict_get d "headers" JNull) (Ok (JDict [])))
    as [hs|e]; cbn [bind] in Hh |- *; [|discriminate Hh].
  rewrite Hh. cbn [bind].
  pose proof (event_query_returns d) as Hq.
  unfold fmap, get in Hq. cbn [bind] in Hq.
  unfold get at 1. cbn [bind].
  destruct (or_else (dict_get d "queryStringParameters" JNull)
              (Ok (JDict []))) as [q|e]; cbn [bind] in Hq |- *;
    [|discriminate Hq].
  injection Hq as Hq. rewrite Hq. reflexivity.
Qed.

(** A body that holds something other than a string (a number, a list, a
    mapping).  Flagged base64, it makes the decoder raise [TypeError].
    Unflagged, it is handed on as the body "bytes" as it is: under a JSON
    content type the reading of it raises [AttributeError] (it has no
    [decode]), which the handler for [JSONDecodeError] lets through;
    otherwise the request is returned with that object in place of the
    bytes. *)
Theorem body_not_str (d : dict) (m c : string) :
  shape_a_ok d = true ->
  resolved_method (JDict d) = JStr m ->
  nothing_or is_dict (dict_get d "headers" JNull) = true ->
  content_type d = JStr c ->
  truthy (dict_get d "body" JNull) = true ->
  is_str (dict_get d "body" JNull) = false ->
  let b := dict_get d "body" JNull in
  (base64_flag d = true ->
     _parse_event (JDict d) =
       Raise (mkExn TypeError
                ("argument should be a bytes-like object or ASCII string, not '"
                   ++ type_name b ++ "'")))
  /\ (base64_flag d = false -> str_contains "application/json" c = true ->
        _parse_event (JDict d) =
          Raise (attribute_error (type_name b) "decode"))
  /\ (base64_flag d = false -> str_contains "application/json" c = false ->
        _parse_event (JDict d) =
          Ok {| req_method := str_upper m;
                req_path := resolved_path d;
                req_headers := lower_keys (header_map d);
                req_query := resolved_query d;
                req_body_bytes := OJson b;
                req_body_json := JNull |}).
Proof.
  intros Hs Hm Hhd Hc Ht Hn b.
  rewrite (_parse_event_upto_body d m Hs Hm Hhd).
  unfold event_body_bytes, event_body_json, get, or_else. cbn [bind].
  fold (content_type d). rewrite Hc. fold b in Ht, Hn |- *.
  rewrite Ht. cbn [bind contains]. unfold base64_flag.
  split; [|split].
  - intros Hf. rewrite Hf. cbn [andb].
    destruct b; try discriminate Hn; try discriminate Ht;
      rewrite Ht; reflexivity.
  - intros Hf Hj. rewrite Hf. cbn [andb].
    destruct b; try discriminate Hn; try discriminate Ht;
      rewrite Ht; cbn [bind]; rewrite Hj; cbn [object_truthy];
      rewrite Ht; reflexivity.
  - intros Hf Hj. rewrite Hf. cbn [andb].
    destruct b; try discriminate Hn; try discriminate Ht;
      rewrite Ht; cbn [bind]; rewrite Hj; reflexivity.
Qed.

End OddBody.

(** A JSON request whose body is the number 5. *)
Lemma body_not_str_witness :
  @_parse_event RefPy.lib
    (JDict [("headers", JDict [("content-type", JStr "application/json")]);
            ("body", JInt 5)]) =
    Raise (mkExn AttributeError "'int' object has no attribute 'decode'").
Proof.
  exact (proj1 (proj2
    (@body_not_str RefPy.lib
       [("headers", JDict [("content-type", JStr "application/json")]);
        ("body", JInt 5)]
       "GET" "application/json" eq_refl eq_refl eq_refl eq_refl eq_refl
       eq_refl)) eq_refl eq_refl).
Defined.

(** *** When the normalizer returns *)

Section Outcome.

Context {L : PyLib}.

(** A shape-A structure that is present and not a mapping stops the method
    expression at [.get]. *)
Lemma event_method_raises (d : dict) :
  shape_a_ok d = false ->
  exists x, is_dict x = false
            /\ event_method (JDict d)
               = Raise (attribute_error (type_name x) "get").
Proof.
  unfold shape_a_ok, event_method, get, dict_get; cbn [bind].
  destruct (dict_lookup d "requestContext") as [rc|]; [|discriminate].
  destruct rc as [| | | | | |rc];
    try (intros _; eexists; split; [|reflexivity]; reflexivity).
  cbn [bind].
  destruct (dict_lookup rc "http") as [http|]; [|discriminate].
  destruct http; try discriminate;
    intros _; eexists; (split; [|reflexivity]); reflexivity.
Qed.


(** The normalizer from the body on, once the method expression and the
    headers went through. *)
Lemma _parse_event_from_body (d : dict) :
  shape_a_ok d = true ->
  nothing_or is_dict (dict_get d "headers" JNull) = true ->
  _parse_event (JDict d) =
  (body_bytes <- event_body_bytes (JDict d) ;;
   body_json <- event_body_json (lower_keys (header_map d)) body_bytes ;;
   m <- upper (resolved_method (JDict d)) ;;
   Ok (request_of d m body_bytes body_json)).
Proof.
  intros Hs Hhd. unfold _parse_event.
  rewrite (event_method_returns d Hs), event_path_returns. cbn [bind].
  pose proof (event_headers_returns d Hhd) as Hh.
  unfold get in Hh. cbn [bind] in Hh.
  unfold get at 1. cbn [bind].
  destruct (or_else (dict_get d "headers" JNull) (Ok (JDict [])))
    as [hs|e]; cbn [bind] in Hh |- *; [|discriminate Hh].
  rewrite Hh. cbn [bind].
  pose proof (event_query_returns d) as Hq.
  unfold fmap, get in Hq. cbn [bind] in Hq.
  unfold get at 1. cbn [bind].
  destruct (or_else (dict_get d "queryStringParameters" JNull)
              (Ok (JDict []))) as [q|e]; cbn [bind] in Hq |- *;
    [|discriminate Hq].
  injection Hq as Hq. rewrite Hq. reflexivity.
Qed.

(** Lines 49-54 return exactly the body bytes the event yields. *)
Lemma event_body_bytes_spec (d : dict) (bb : object) :
  event_body_bytes (JDict d) = Ok bb <-> body_bytes_of d bb.
Proof.
  unfold event_body_bytes, get, or_else. cbn [bind].
  fold (base64_flag d).
  split.
  - destruct (truthy (dict_get d "body" JNull)) eqn:Tb; cbn [bind].
    + rewrite Tb, andb_true_r.
      destruct (base64_flag d) eqn:F.
      * destruct (dict_get d "body" JNull) as [| | | |s| |] eqn:Eb;
          cbn [base64_b64decode fmap bind]; try discriminate.
        destruct (b64decode s) as [raw|e] eqn:E; [|discriminate].
        cbn [bind]. intros H; injection H as <-.
        apply (bytes_of_base64 d s raw); try assumption.
        intros ->. discriminate Tb.
      * destruct (dict_get d "body" JNull) as [| | | |s| |] eqn:Eb;
          try discriminate Tb;
          try (intros H; injection H as <-;
               apply (bytes_of_object d);
               solve [assumption | reflexivity]).
        cbn [fmap bind].
        destruct (str_encode s) as [raw|e] eqn:E; [|discriminate].
        cbn [bind]. intros H; injection H as <-.
        apply (bytes_of_text d s raw); try assumption.
        intros ->. discriminate Tb.
    + cbn [truthy String.eqb negb]. rewrite andb_false_r.
      cbn [fmap bind].
      destruct (str_encode "") as [raw|e] eqn:E; [|discriminate].
      cbn [bind]. intros H; injection H as <-.
      apply (bytes_of_nothing d raw); assumption.
  - intros H. destruct H as [raw Tb E|s raw Eb Hs F E|s raw Eb Hs F E|b Eb Tb Hn F].
    + rewrite Tb. cbn [bind truthy String.eqb negb].
      rewrite andb_false_r. cbn [fmap bind]. rewrite E. reflexivity.
    + assert (Tb : truthy (JStr s) = true)
        by (cbn; apply negb_true_iff, String.eqb_neq, Hs).
      rewrite Eb, Tb. cbn [bind]. rewrite F, Tb. cbn [andb].
      cbn [base64_b64decode fmap bind]. rewrite E. reflexivity.
    + assert (Tb : truthy (JStr s) = true)
        by (cbn; apply negb_true_iff, String.eqb_neq, Hs).
      rewrite Eb, Tb. cbn [bind]. rewrite F. cbn [andb].
      cbn [fmap bind]. rewrite E. reflexivity.
    + rewrite Eb, Tb. cbn [bind]. rewrite F. cbn [andb].
      destruct b; try discriminate Hn; rewrite Tb; reflexivity.
Qed.

(** Lines 56-62 return exactly the parsed body the event yields. *)
Lemma event_body_json_spec (d : dict) (bb : object) (bj : json) :
  event_body_json (lower_keys (header_map d)) bb = Ok bj
  <-> parsed_body_of d bb bj.
Proof.
  unfold event_body_json. fold (content_type d).
  split.
  - destruct (contains "application/json" (content_type d)) as [c|e] eqn:Ec;
      [|discriminate].
    cbn [bind].
    destruct (c && object_truthy bb) eqn:Ejson.
    + apply andb_true_iff in Ejson as [-> Hb].
      destruct bb as [j|raw]; cbn [decode bind try_except].
      { cbn. discriminate. }
      assert (Hraw : raw <> []) by (intros ->; discriminate Hb).
      fold (loads_utf8 raw).
      destruct (loads_utf8 raw) as [v|e] eqn:El; cbn [try_except].
      * intros H; injection H as <-.
        apply (parsed_value d _ raw v); auto.
      * destruct (isinstance e JSONDecodeError) eqn:Ei; [|discriminate].
        intros H; injection H as <-.
        apply (parsed_malformed d _ raw e); auto.
        apply isinstance_JSONDecodeError, Ei.
    + intros H; injection H as <-.
      apply (parsed_nothing d _ c); assumption.
  - intros H.
    destruct H as [c Ec Ej|raw v Ec -> Hraw El|raw e Ec -> Hraw El Hc].
    + rewrite Ec. cbn [bind]. rewrite Ej. reflexivity.
    + rewrite Ec. cbn [bind andb object_truthy].
      destruct raw; [contradiction|].
      cbn [decode]. fold (loads_utf8 (b :: raw)). rewrite El. reflexivity.
    + rewrite Ec. cbn [bind andb object_truthy].
      destruct raw; [contradiction|].
      cbn [decode]. fold (loads_utf8 (b :: raw)). rewrite El.
      cbn [try_except].
      replace (isinstance e JSONDecodeError) with true
        by (symmetry; apply isinstance_JSONDecodeError, Hc).
      reflexivity.
Qed.

End Outcome.

Section Returns.

Context {L : PyLib}.

Lemma shape_a_method_ok (d : dict) (x : json) :
  shape_a_method (JDict d) = Some x -> shape_a_ok d = true.
Proof.
  unfold shape_a_method, shape_a_ok.
  destruct (dict_lookup d "requestContext") as [[| | | | | |rc]|];
    try discriminate.
  destruct (dict_lookup rc "http") as [[| | | | | |http]|];
    try discriminate; reflexivity.
Qed.

(** The normalizer once the body bytes and the parsed body are known. *)
Lemma _parse_event_with_body (d : dict) (bb : object) (bj : json) :
  shape_a_ok d = true ->
  nothing_or is_dict (dict_get d "headers" JNull) = true ->
  body_bytes_of d bb ->
  parsed_body_of d bb bj ->
  _parse_event (JDict d) =
  (m <- upper (resolved_method (JDict d)) ;; Ok (request_of d m bb bj)).
Proof.
  intros Hs Hh Hbb Hbj.
  rewrite (_parse_event_from_body d Hs Hh).
  rewrite (proj2 (event_body_bytes_spec d bb) Hbb). cbn [bind].
  rewrite (proj2 (event_body_json_spec d bb bj) Hbj). reflexivity.
Qed.

(** C2, as amended: the method of the request, on an event whose headers
    and body normalize.  A shape-A method that is a non-empty string is
    taken; when the shape-A field holds nothing, the shape-B field is taken
    when the event has it (an empty string included), and the default
    ["GET"] otherwise; the request carries the method uppercased.  The
    fallback needs the shape-A structures to be mappings: when
    [requestContext] or [http] is present and is not one, the normalizer
    raises [AttributeError], and it raises it at [.upper()] when the
    resolved method is not a string. *)
Theorem method_of_request (d : dict) (bb : object) (bj : json) :
  nothing_or is_dict (dict_get d "headers" JNull) = true ->
  body_bytes_of d bb ->
  parsed_body_of d bb bj ->
  (forall m,
     shape_a_method (JDict d) = Some (JStr m) -> m <> "" ->
     _parse_event (JDict d) = Ok (request_of d (str_upper m) bb bj))
  /\ (forall m,
        shape_a_ok d = true ->
        holds_nothing (shape_a_method (JDict d)) = true ->
        shape_b_method (JDict d) = Some (JStr m) ->
        _parse_event (JDict d) = Ok (request_of d (str_upper m) bb bj))
  /\ (shape_a_ok d = true ->
      holds_nothing (shape_a_method (JDict d)) = true ->
      shape_b_method (JDict d) = None ->
      _parse_event (JDict d) = Ok (request_of d (str_upper "GET") bb bj)
      /\ (str_upper "GET" = "GET" ->
          _parse_event (JDict d) = Ok (request_of d "GET" bb bj)))
  /\ (shape_a_ok d = true ->
      is_str (resolved_method (JDict d)) = false ->
      _parse_event (JDict d) =
        Raise (attribute_error (type_name (resolved_method (JDict d)))
                 "upper"))
  /\ (shape_a_ok d = false ->
      exists x,
        is_dict x = false
        /\ _parse_event (JDict d)
           = Raise (attribute_error (type_name x) "get")).
Proof.
  intros Hh Hbb Hbj.
  assert (Hres : holds_nothing (shape_a_method (JDict d)) = true ->
    resolved_method (JDict d) =
    match shape_b_method (JDict d) with
    | Some m => m
    | None => JStr "GET"
    end).
  { unfold resolved_method, holds_nothing.
    destruct (shape_a_method (JDict d)) as [x|]; [|reflexivity].
    intros Hx. apply negb_true_iff in Hx. rewrite Hx. reflexivity. }
  split; [|split; [|split; [|split]]].
  - intros m Ha Hm.
    rewrite (_parse_event_with_body d bb bj (shape_a_method_ok d _ Ha)
               Hh Hbb Hbj).
    unfold resolved_method. rewrite Ha. cbn [truthy].
    apply String.eqb_neq in Hm. rewrite Hm. reflexivity.
  - intros m Hs Ha Hb.
    rewrite (_parse_event_with_body d bb bj Hs Hh Hbb Hbj).
    rewrite (Hres Ha), Hb. reflexivity.
  - intros Hs Ha Hb.
    rewrite (_parse_event_with_body d bb bj Hs Hh Hbb Hbj).
    rewrite (Hres Ha), Hb. cbn [upper bind].
    split; [reflexivity | intros ->; reflexivity].
  - intros Hs Hm.
    rewrite (_parse_event_with_body d bb bj Hs Hh Hbb Hbj).
    destruct (resolved_method (JDict d)); try discriminate Hm; reflexivity.
  - intros Hs. destruct (event_method_raises d Hs) as [x [Hx He]].
    exists x. split; [exact Hx|].
    unfold _parse_event. rewrite He. reflexivity.
Qed.


End Returns.

(** C2, the claim as stated fails: in [{"requestContext": null}] no method
    field is present, and the normalizer raises where the claim has it fall
    back to ["GET"]. *)
Lemma null_context_raises :
  shape_a_method (JDict event_null_context) = None
  /\ shape_b_method (JDict event_null_context) = None
  /\ @_parse_event RefPy.lib (JDict event_null_context) =
     Raise (mkExn AttributeError "'NoneType' object has no attribute 'get'")
  /\ ~ (exists r, @_parse_event RefPy.lib (JDict event_null_context) = Ok r).
Proof.
  repeat split. intros [r Hr]. discriminate Hr.
Qed.

(** An event that names its method in both shapes: the shape-A one is
    taken and uppercased. *)
Lemma method_of_request_witness :
  @_parse_event RefPy.lib (JDict event_both_shapes) =
    Ok {| req_method := "PUT"; req_path := JStr "/items/7";
          req_headers := []; req_query := JDict [];
          req_body_bytes := OBytes []; req_body_json := JNull |}.
Proof.
  exact (proj1
    (@method_of_request RefPy.lib event_both_shapes (OBytes []) JNull
       eq_refl
       (@bytes_of_nothing RefPy.lib event_both_shapes [] eq_refl eq_refl)
       (@parsed_nothing RefPy.lib event_both_shapes (OBytes []) false
          eq_refl eq_refl))
    "put" eq_refl ltac:(discriminate)).
Defined.

